(** * great_expectations: the SQL data sampler and the volume data assistant

    A shallow embedding of
    - [great_expectations/execution_engine/split_and_sample/sqlalchemy_data_sampler.py]
      (class [SqlAlchemyDataSampler]), and
    - [tests/rule_based_profiler/data_assistant/test_volume_data_assistant.py]
      (the helper [get_validator_with_expectation_suite] the notebook cell
      carries, and the values [test_get_metrics_and_expectations] expects),
    together with a model of the rule-based profiler those tests drive. *)

From Stdlib Require Import ZArith QArith Qround List String Ascii Bool Lia.
From Stdlib Require Import DecimalString.
Import ListNotations.
Open Scope Z_scope.
Set Warnings "-register-all".

(** ** Python values *)

Module Python.

(** A [str] is a sequence of Unicode code points. *)
Definition codepoint := N.
Definition pystr := list codepoint.

Definition str_of (s : string) : pystr :=
  map N_of_ascii (list_ascii_of_string s).

(** A [float] is an IEEE 754 binary64 number: a finite one is [m * 2^e]
    with at most 53 significant bits in [m]. *)
Inductive pyfloat :=
| Finite (m e : Z)
| Inf (negative : bool)
| NaN.

Inductive pyval :=
| PyNone
| PyBool (b : bool)
| PyInt (z : Z)
| PyFloat (f : pyfloat)
| PyStr (s : pystr)
| PyList (l : list pyval)
| PyDict (d : list (string * pyval)).

Inductive exn :=
| InvalidConfigError (msg : string)
| DataContextError
| KeyError (key : string)
| TypeError
| ValueError (msg : string)
| OverflowError.

Inductive result (A : Type) :=
| Return (a : A)
| Raise (e : exn).
Arguments Return {A} a.
Arguments Raise {A} e.

Definition bind {A B} (r : result A) (k : A -> result B) : result B :=
  match r with
  | Return a => k a
  | Raise e => Raise e
  end.

Notation "x <- r ;; k" := (bind r (fun x => k))
  (at level 61, r at next level, right associativity).

(** [d[key]] and [d.get(key, None)] on a dict with [str] keys. *)
Fixpoint dict_get (key : string) (d : list (string * pyval)) : option pyval :=
  match d with
  | [] => None
  | (k, v) :: rest => if String.eqb k key then Some v else dict_get key rest
  end.

Definition getitem (v : pyval) (key : string) : result pyval :=
  match v with
  | PyDict d =>
      match dict_get key d with
      | Some x => Return x
      | None => Raise (KeyError key)
      end
  | _ => Raise TypeError
  end.

Definition get_or_none (v : pyval) (key : string) : result pyval :=
  match v with
  | PyDict d =>
      match dict_get key d with
      | Some x => Return x
      | None => Return PyNone
      end
  | _ => Raise TypeError
  end.

(** [isinstance(n, str)] and [isinstance(n, int)]; [bool] is a subclass
    of [int]. *)
Definition isinstance_str (v : pyval) : bool :=
  match v with PyStr _ => true | _ => false end.

Definition isinstance_int (v : pyval) : bool :=
  match v with PyInt _ | PyBool _ => true | _ => false end.

(** Truth value testing: [None], [False], zero of any numeric type and
    empty sequences and mappings are false. *)
Definition truthy (v : pyval) : bool :=
  match v with
  | PyNone => false
  | PyBool b => b
  | PyInt z => negb (z =? 0)
  | PyFloat (Finite m _) => negb (m =? 0)
  | PyFloat _ => true
  | PyStr s => match s with [] => false | _ => true end
  | PyList l => match l with [] => false | _ => true end
  | PyDict d => match d with [] => false | _ => true end
  end.

(** [x or y] *)
Definition py_or (x y : pyval) : pyval := if truthy x then x else y.

(** *** binary64 arithmetic *)

(** [m / k] rounded to the nearest integer, ties to the even one
    ([k > 0]). *)
Definition div_half_even (m k : Z) : Z :=
  let q := m / k in
  let r := m mod k in
  if 2 * r <? k then q
  else if k <? 2 * r then q + 1
  else if Z.even q then q else q + 1.

Definition bits (m : Z) : Z :=
  if m =? 0 then 0 else Z.log2 (Z.abs m) + 1.

Definition precision : Z := 53.
Definition emin : Z := -1074.
Definition emax : Z := 1024.

(** The binary64 number nearest to [m * 2^e]: at most 53 significant
    bits, no exponent under [emin], infinite from [2^emax] on. *)
Definition round_binary64 (m e : Z) : pyfloat :=
  let shift := Z.max (bits m - precision) (emin - e) in
  let '(m', e') :=
    if 0 <? shift then (div_half_even m (2 ^ shift), e + shift) else (m, e) in
  if emax <? bits m' + e' then Inf (m' <? 0) else Finite m' e'.

(** [float(z)]: an [int] beyond the range raises [OverflowError]. *)
Definition float_of_int (z : Z) : result pyfloat :=
  match round_binary64 z 0 with
  | Inf _ => Raise OverflowError
  | f => Return f
  end.

Definition float_mul (x y : pyfloat) : pyfloat :=
  match x, y with
  | NaN, _ | _, NaN => NaN
  | Inf s, Inf t => Inf (xorb s t)
  | Inf s, Finite m _ | Finite m _, Inf s =>
      if m =? 0 then NaN else Inf (xorb s (m <? 0))
  | Finite m1 e1, Finite m2 e2 => round_binary64 (m1 * m2) (e1 + e2)
  end.

(** [round(x)] of a float, to an [int], ties to even. *)
Definition float_round (x : pyfloat) : result Z :=
  match x with
  | NaN => Raise (ValueError "cannot convert float NaN to integer")
  | Inf _ => Raise OverflowError
  | Finite m e => Return (if 0 <=? e then m * 2 ^ e else div_half_even m (2 ^ (- e)))
  end.

Definition int_of_bool (b : bool) : Z := if b then 1 else 0.

Fixpoint repeat_seq {A} (n : nat) (l : list A) : list A :=
  match n with
  | O => []
  | S k => l ++ repeat_seq k l
  end.

(** [x * n] for an [int] [n]: numbers multiply ([int] is converted to
    [float] next to a [float]), sequences repeat. *)
Definition py_mul_int (x : pyval) (n : Z) : result pyval :=
  match x with
  | PyInt z => Return (PyInt (z * n))
  | PyBool b => Return (PyInt (int_of_bool b * n))
  | PyFloat f => y <- float_of_int n ;; Return (PyFloat (float_mul f y))
  | PyStr s => Return (PyStr (repeat_seq (Z.to_nat n) s))
  | PyList l => Return (PyList (repeat_seq (Z.to_nat n) l))
  | PyNone | PyDict _ => Raise TypeError
  end.

(** [round(x)] with one argument. *)
Definition py_round (x : pyval) : result Z :=
  match x with
  | PyInt z => Return z
  | PyBool b => Return (int_of_bool b)
  | PyFloat f => float_round f
  | _ => Raise TypeError
  end.

End Python.

(** ** [SqlAlchemyDataSampler] *)

Module SqlAlchemyDataSampler.
Import Python.

(** What [sa.select(...)] builds, as far as the sampler shapes it. *)
Inductive columns := Star | CountRows.

(** [where_clause]: [None] or the clause a splitter generated. *)
Inductive clause :=
| ClauseNone
| ClauseExpr (text : pystr).

Record Select := {
  sel_columns : columns;
  sel_table : pyval;
  sel_schema : pyval;
  sel_where : clause;
  sel_order_by_random : bool;
  sel_limit : option Z
}.

(** The execution engine, as far as [sample_using_random] uses it: the
    scalar the database returns for a COUNT query. *)
Record SqlAlchemyExecutionEngine := {
  execute_scalar : Select -> Z
}.

Section Sampler.

(** [str.isdigit] looks every character up in the Unicode database
    (numeric type Digit or Decimal); the table belongs to the Python
    runtime. *)
Variable unicode_isdigit : codepoint -> bool.

(** [s.isdigit()]: every character is a digit and there is at least
    one. *)
Definition isdigit (s : pystr) : bool :=
  match s with
  | [] => false
  | _ => forallb unicode_isdigit s
  end.

Definition msg_not_str_or_int : string :=
  "Please specify your sampling kwargs 'n' parameter as a string or int.".

Definition msg_not_parseable : string :=
  "If specifying your sampling kwargs 'n' parameter as a string please ensure it is parseable as an integer.".

(** [_validate_mssql_limit_param(self, n)] *)
Definition _validate_mssql_limit_param (n : pyval) : result pyval :=
  if negb (isinstance_str n || isinstance_int n) then
    Raise (InvalidConfigError msg_not_str_or_int)
  else if isinstance_str n && negb (match n with PyStr s => isdigit s | _ => false end) then
    Raise (InvalidConfigError msg_not_parseable)
  else Return PyNone.

(** [sample_using_random(self, execution_engine, batch_spec, where_clause)] *)
Definition sample_using_random (execution_engine : SqlAlchemyExecutionEngine)
    (batch_spec : pyval) (where_clause : clause) : result Select :=
  table_name <- getitem batch_spec "table_name" ;;
  schema_name <- get_or_none batch_spec "schema_name" ;;
  let num_rows :=
    execute_scalar execution_engine
      {| sel_columns := CountRows; sel_table := table_name;
         sel_schema := schema_name; sel_where := where_clause;
         sel_order_by_random := false; sel_limit := None |} in
  sampling_kwargs <- getitem batch_spec "sampling_kwargs" ;;
  p0 <- getitem sampling_kwargs "p" ;;
  let p := py_or p0 (PyFloat (Finite 1 0)) in
  product <- py_mul_int p num_rows ;;
  sample_size <- py_round product ;;
  schema_name' <- get_or_none batch_spec "schema_name" ;;
  Return {| sel_columns := Star; sel_table := table_name;
            sel_schema := schema_name'; sel_where := where_clause;
            sel_order_by_random := true;
            sel_limit := Some sample_size |}.

End Sampler.

(** The COUNT query [sample_using_random] sends first. *)
Definition count_query (batch_spec : list (string * pyval)) (table_name : pyval)
    (where_clause : clause) : Select :=
  {| sel_columns := CountRows;
     sel_table := table_name;
     sel_schema := match dict_get "schema_name" batch_spec with
                   | Some schema => schema
                   | None => PyNone
                   end;
     sel_where := where_clause;
     sel_order_by_random := false;
     sel_limit := None |}.

(** The query [sample_using_random] returns for a sample of [size] rows. *)
Definition random_sample (batch_spec : list (string * pyval)) (table_name : pyval)
    (where_clause : clause) (size : Z) : Select :=
  {| sel_columns := Star;
     sel_table := table_name;
     sel_schema := match dict_get "schema_name" batch_spec with
                   | Some schema => schema
                   | None => PyNone
                   end;
     sel_where := where_clause;
     sel_order_by_random := true;
     sel_limit := Some size |}.

End SqlAlchemyDataSampler.

(** ** [get_validator_with_expectation_suite]

    The helper of [tests/test_utils.py], as the notebook cell written by
    [run_volume_data_assistant_result_jupyter_notebook_with_new_cell]
    defines it. *)

Module TestUtils.
Import Python.

Record ExpectationSuite := {
  expectation_suite_name : string;
  expectations : list pyval
}.

(** The data context, as far as the helper touches it: the suites it
    stores by name, and what was printed. *)
Record World := {
  suites : list (string * ExpectationSuite);
  stdout : list string
}.

Definition M (A : Type) : Type := World -> result A * World.

Definition ret {A} (a : A) : M A := fun w => (Return a, w).
Definition raise {A} (e : exn) : M A := fun w => (Raise e, w).
Definition mbind {A B} (m : M A) (k : A -> M B) : M B :=
  fun w =>
    match m w with
    | (Return a, w') => k a w'
    | (Raise e, w') => (Raise e, w')
    end.

(** [try: m except DataContextError: handler] *)
Definition except_DataContextError {A} (m handler : M A) : M A :=
  fun w =>
    match m w with
    | (Raise DataContextError, w') => handler w'
    | r => r
    end.

Notation "x <-- m ;; k" := (mbind m (fun x => k))
  (at level 61, m at next level, right associativity).

Fixpoint find_suite (name : string) (l : list (string * ExpectationSuite))
  : option ExpectationSuite :=
  match l with
  | [] => None
  | (k, v) :: rest => if String.eqb k name then Some v else find_suite name rest
  end.

(** [data_context.get_expectation_suite(expectation_suite_name=...)] *)
Definition get_expectation_suite (name : string) : M ExpectationSuite :=
  fun w =>
    match find_suite name (suites w) with
    | Some s => (Return s, w)
    | None => (Raise DataContextError, w)
    end.

(** [data_context.create_expectation_suite(expectation_suite_name=...)] *)
Definition create_expectation_suite (name : string) : M ExpectationSuite :=
  fun w =>
    let s := {| expectation_suite_name := name; expectations := [] |} in
    (Return s, {| suites := (name, s) :: suites w; stdout := stdout w |}).

Definition print (line : string) : M unit :=
  fun w => (Return tt, {| suites := suites w; stdout := stdout w ++ [line] |}).

Definition quote : string := String (ascii_of_nat 34) EmptyString.

Definition msg_mutually_inconsistent : string :=
  ("Mutually inconsistent " ++ quote ++ "expectation_suite" ++ quote ++ " and "
     ++ quote ++ "expectation_suite_name" ++ quote ++ " were specified.")%string.

Section GetValidator.

Variables BatchRequest Validator : Type.

(** [materialize_batch_request] and [data_context.get_validator] belong
    to the library under test. *)
Variable materialize_batch_request : BatchRequest -> M BatchRequest.
Variable get_validator : BatchRequest -> option string -> M Validator.

(** [str(uuid.uuid4())] *)
Variable uuid4 : string.

(** [not component_name] *)
Definition not_component_name (component_name : option string) : bool :=
  match component_name with
  | None => true
  | Some c => String.eqb c EmptyString
  end.

Definition get_validator_with_expectation_suite
    (batch_request : BatchRequest)
    (expectation_suite : option ExpectationSuite)
    (expectation_suite_name : option string)
    (component_name : option string) : M Validator :=
  flags <--
    match expectation_suite, expectation_suite_name with
    | Some suite, Some name =>
        if negb (String.eqb (TestUtils.expectation_suite_name suite) name)
        then raise (ValueError msg_mutually_inconsistent)
        else ret (false, false)
    | None, Some _ => ret (false, true)
    | Some _, None => ret (false, false)
    | None, None => ret (true, true)
    end ;;
  let '(generate_temp_expectation_suite_name, create_expectation_suite_flag) := flags in
  let expectation_suite_name :=
    if generate_temp_expectation_suite_name then
      let component_name :=
        if not_component_name component_name then "test"%string
        else match component_name with Some c => c | None => "test"%string end in
      Some ("tmp." ++ component_name ++ ".suite_" ++ substring 0 8 uuid4)%string
    else expectation_suite_name in
  _ <--
    (if create_expectation_suite_flag then
       match expectation_suite_name with
       | Some name =>
           except_DataContextError
             (_ <-- get_expectation_suite name ;; ret tt)
             (suite <-- create_expectation_suite name ;;
              print ("Created ExpectationSuite " ++ quote
                       ++ TestUtils.expectation_suite_name suite ++ quote ++ ".")%string)
       | None => raise TypeError
       end
     else ret tt) ;;
  batch_request <-- materialize_batch_request batch_request ;;
  get_validator batch_request expectation_suite_name.

(** The name generated when neither a suite nor a name is given. *)
Definition temporary_suite_name (component_name : option string) : string :=
  ("tmp."
     ++ match component_name with
        | Some c => if String.eqb c "" then "test" else c
        | None => "test"
        end
     ++ ".suite_" ++ substring 0 8 uuid4)%string.

End GetValidator.

End TestUtils.

(** ** The rule-based profiler *)

Module Profiler.

(** Configuration and result values: what the profiler's configuration,
    its parameters and the expectation configurations are made of.
    Numbers compare by value ([10000 == 10000.0] in Python), so one
    constructor holds them, as fractions. *)
Inductive value :=
| VNone
| VBool (b : bool)
| VNum (q : Q)
| VStr (s : string)
| VList (l : list value)
| VDict (d : list (string * value)).

Definition VInt (z : Z) : value := VNum (z # 1).

Inductive error :=
| ConfigurationResolutionError (path : string)
| MetricComputationError (metric_name : string)
| InvalidEstimatorConfigError
| DomainBuilderError.

Inductive outcome (A : Type) :=
| Ok (a : A)
| Err (e : error).
Arguments Ok {A} a.
Arguments Err {A} e.

Definition obind {A B} (r : outcome A) (k : A -> outcome B) : outcome B :=
  match r with
  | Ok a => k a
  | Err e => Err e
  end.

Notation "x <~ r ;; k" := (obind r (fun x => k))
  (at level 61, r at next level, right associativity).

(** [for x in l: acc = f(acc, x)], stopping at the first failure. *)
Fixpoint fold_outcome {A B} (f : B -> A -> outcome B) (l : list A) (acc : B)
  : outcome B :=
  match l with
  | [] => Ok acc
  | x :: rest => acc' <~ f acc x ;; fold_outcome f rest acc'
  end.

Fixpoint map_outcome {A B} (f : A -> outcome B) (l : list A) : outcome (list B) :=
  match l with
  | [] => Ok []
  | x :: rest => y <~ f x ;; ys <~ map_outcome f rest ;; Ok (y :: ys)
  end.

(** *** Dictionaries *)

Fixpoint lookup (key : string) (d : list (string * value)) : option value :=
  match d with
  | [] => None
  | (k, v) :: rest => if String.eqb k key then Some v else lookup key rest
  end.

(** [d[key] = v]: the key keeps its place when present, else goes last. *)
Fixpoint store (key : string) (v : value) (d : list (string * value))
  : list (string * value) :=
  match d with
  | [] => [(key, v)]
  | (k, x) :: rest =>
      if String.eqb k key then (k, v) :: rest else (k, x) :: store key v rest
  end.

Definition field (key : string) (v : value) : option value :=
  match v with
  | VDict d => lookup key d
  | _ => None
  end.

Fixpoint get_path (path : list string) (v : value) : option value :=
  match path with
  | [] => Some v
  | k :: rest =>
      match field k v with
      | Some x => get_path rest x
      | None => None
      end
  end.

(** Stores [x] under the dotted [path], making the nodes on the way. *)
Fixpoint set_path (path : list string) (x : value) (v : value) : value :=
  match path with
  | [] => x
  | k :: rest =>
      let d := match v with VDict d => d | _ => [] end in
      let sub := match lookup k d with Some y => y | None => VDict [] end in
      VDict (store k (set_path rest x sub) d)
  end.

(** Python's [==] on these values: dictionaries compare without regard
    to the order of their keys, lists position by position. *)
Fixpoint value_eqb (a b : value) {struct a} : bool :=
  match a, b with
  | VNone, VNone => true
  | VBool x, VBool y => Bool.eqb x y
  | VNum x, VNum y => Qeq_bool x y
  | VStr x, VStr y => String.eqb x y
  | VList l, VList m =>
      (fix list_eqb (l : list value) (m : list value) {struct l} : bool :=
         match l, m with
         | [], [] => true
         | x :: l', y :: m' => value_eqb x y && list_eqb l' m'
         | _, _ => false
         end) l m
  | VDict d, VDict e =>
      Nat.eqb (List.length d) (List.length e) &&
      (fix dict_sub (d : list (string * value)) : bool :=
         match d with
         | [] => true
         | (k, x) :: d' =>
             match lookup k e with
             | Some y => value_eqb x y && dict_sub d'
             | None => false
             end
         end) d
  | _, _ => false
  end.

(** *** Reference resolver

    Modelled from the spec: the Reference Resolver (section 4.1) is not
    among the sources. A string value of the form
    [$<namespace>.<dotted.path>] with an optional trailing [[index]] is
    replaced by what the path leads to in the binding environment; other
    values pass through; a path that leads nowhere fails. One pass: what
    was looked up is not resolved again. *)

Definition is_reference (s : string) : bool :=
  match s with
  | String c _ => Ascii.eqb c "$"
  | EmptyString => false
  end.

(** [s.split(sep)] *)
Fixpoint split_on (sep : ascii) (s : string) : list string :=
  match s with
  | EmptyString => [EmptyString]
  | String c rest =>
      let parts := split_on sep rest in
      if Ascii.eqb c sep then EmptyString :: parts
      else match parts with
           | p :: ps => String c p :: ps
           | [] => [String c EmptyString]
           end
  end.

Definition digit_of (c : ascii) : option nat :=
  let n := nat_of_ascii c in
  if (48 <=? n)%nat && (n <=? 57)%nat then Some (n - 48)%nat else None.

(** Reads [digits]] up to the end of the string. *)
Fixpoint read_index (s : string) (acc : option nat) : option nat :=
  match s with
  | EmptyString => None
  | String c rest =>
      if Ascii.eqb c "]" then
        match rest with
        | EmptyString => acc
        | _ => None
        end
      else
        match digit_of c with
        | Some d =>
            read_index rest
              (Some (10 * match acc with Some n => n | None => 0 end + d)%nat)
        | None => None
        end
  end.

(** Splits [name[3]] into the name and the index; [name] has none. *)
Fixpoint split_index (s : string) : option (string * option nat) :=
  match s with
  | EmptyString => Some (EmptyString, None)
  | String c rest =>
      if Ascii.eqb c "[" then
        match read_index rest None with
        | Some i => Some (EmptyString, Some i)
        | None => None
        end
      else
        match split_index rest with
        | Some (name, i) => Some (String c name, i)
        | None => None
        end
  end.

(** The dotted path of a reference and its optional index. *)
Definition parse_reference (s : string) : option (list string * option nat) :=
  match s with
  | String c body =>
      if Ascii.eqb c "$" then
        let segments := split_on "." body in
        match split_index (last segments EmptyString) with
        | Some (name, i) => Some (removelast segments ++ [name], i)
        | None => None
        end
      else None
  | EmptyString => None
  end.

Definition resolve_reference (env : value) (s : string) : outcome value :=
  match parse_reference s with
  | Some (path, index) =>
      match get_path path env, index with
      | Some v, None => Ok v
      | Some (VList l), Some i =>
          match nth_error l i with
          | Some x => Ok x
          | None => Err (ConfigurationResolutionError s)
          end
      | _, _ => Err (ConfigurationResolutionError s)
      end
  | None => Err (ConfigurationResolutionError s)
  end.

Fixpoint resolve (env : value) (v : value) {struct v} : outcome value :=
  match v with
  | VStr s => if is_reference s then resolve_reference env s else Ok v
  | VList l =>
      l' <~ (fix resolve_list (l : list value) : outcome (list value) :=
               match l with
               | [] => Ok []
               | x :: rest =>
                   y <~ resolve env x ;; ys <~ resolve_list rest ;; Ok (y :: ys)
               end) l ;;
      Ok (VList l')
  | VDict d =>
      d' <~ (fix resolve_dict (d : list (string * value))
               : outcome (list (string * value)) :=
               match d with
               | [] => Ok []
               | (k, x) :: rest =>
                   y <~ resolve env x ;; ys <~ resolve_dict rest ;; Ok ((k, y) :: ys)
               end) d ;;
      Ok (VDict d')
  | _ => Ok v
  end.

(** *** Numbers *)

Local Open Scope Q_scope.

Definition Qmin' (a b : Q) : Q := if Qle_bool a b then a else b.
Definition Qmax' (a b : Q) : Q := if Qle_bool a b then b else a.

Definition list_min (x : Q) (l : list Q) : Q := fold_left Qmin' l x.
Definition list_max (x : Q) (l : list Q) : Q := fold_left Qmax' l x.

(** [q] rounded to the nearest integer, ties to the even one. *)
Definition round_half_even (q : Q) : Z :=
  Python.div_half_even (Qnum q) (Zpos (Qden q)).

(** [round(q, decimals)] *)
Definition round_to (decimals : Z) (q : Q) : Q :=
  if (0 <=? decimals)%Z
  then Qred (inject_Z (round_half_even (q * inject_Z (10 ^ decimals)))
               / inject_Z (10 ^ decimals))
  else Qred (inject_Z (round_half_even (q / inject_Z (10 ^ (- decimals)))
                         * 10 ^ (- decimals))).

Definition as_int (v : value) : option Z :=
  match v with
  | VNum q =>
      if Pos.eqb (Qden q) 1 then Some (Qnum q)
      else if Pos.eqb (Qden (Qred q)) 1 then Some (Qnum (Qred q))
      else None
  | _ => None
  end.

Definition as_optional_num (v : value) : option (option Q) :=
  match v with
  | VNone => Some None
  | VNum q => Some (Some q)
  | _ => None
  end.

(** *** Numeric range estimator

    Modelled from the spec: the Numeric Range Estimator (section 4.3) is
    not among the sources. The spec leaves open what it has the numeric
    library do: the random generator, the statistic of a resample ("the
    configured reducer"), the interpolation of an empirical quantile and
    the kernel density estimate are parameters. *)

Inductive estimator_kind := Exact | Bootstrap | Quantiles | Kde.

Definition estimator_of_string (s : string) : option estimator_kind :=
  if String.eqb s "exact" then Some Exact
  else if String.eqb s "bootstrap" then Some Bootstrap
  else if String.eqb s "quantiles" then Some Quantiles
  else if String.eqb s "kde" then Some Kde
  else None.

Record truncation := {
  lower_bound : option Q;
  upper_bound : option Q
}.

Definition truncate (t : truncation) (bounds : Q * Q) : Q * Q :=
  let '(lo, hi) := bounds in
  (match lower_bound t with Some b => Qmax' lo b | None => lo end,
   match upper_bound t with Some b => Qmin' hi b | None => hi end).

Definition round_bounds (round_decimals : option Z) (bounds : Q * Q) : Q * Q :=
  let '(lo, hi) := bounds in
  match round_decimals with
  | Some d => (round_to d lo, round_to d hi)
  | None => (Qred lo, Qred hi)
  end.

(** One distinct value, repeated or alone. *)
Definition degenerate (values : list Q) : option Q :=
  match values with
  | x :: rest => if forallb (Qeq_bool x) rest then Some x else None
  | [] => None
  end.

Section Estimator.

Variable rng : Type.
(** The generator a seed starts. *)
Variable seed_rng : Z -> rng.
(** An index below the bound, and the generator after the draw. *)
Variable randint : rng -> nat -> nat * rng.
Variable reducer : list Q -> Q.
Variable empirical_quantile : list Q -> Q -> Q.
Variable kde_interval : list Q -> Q -> Q * Q.

(** [n] draws with replacement. *)
Fixpoint resample (values : list Q) (n : nat) (g : rng) : list Q * rng :=
  match n with
  | O => ([], g)
  | S k =>
      let '(i, g') := randint g (List.length values) in
      let '(rest, g'') := resample values k g' in
      (nth i values 0 :: rest, g'')
  end.

Fixpoint resamples (values : list Q) (num_samples : nat) (g : rng)
  : list (list Q) :=
  match num_samples with
  | O => []
  | S k =>
      let '(sample, g') := resample values (List.length values) g in
      sample :: resamples values k g'
  end.

(** Steps 1 to 3. With no seed configured the generator starts from the
    entropy of the operating system. *)
Definition bootstrap (os_entropy : Z) (values : list Q) (false_positive_rate : Q)
    (num_samples : Z) (random_seed : option Z) : Q * Q :=
  match degenerate values with
  | Some x => (x, x)
  | None =>
      let g := seed_rng (match random_seed with Some s => s | None => os_entropy end) in
      let distribution := map reducer (resamples values (Z.to_nat num_samples) g) in
      (empirical_quantile distribution (false_positive_rate / 2),
       empirical_quantile distribution (1 - false_positive_rate / 2))
  end.

(** The interval of the strategy configured, before truncation and
    rounding. *)
Definition interval (os_entropy : Z) (estimator : estimator_kind) (x : Q)
    (rest : list Q) (false_positive_rate : Q) (num_samples : Z)
    (random_seed : option Z) : Q * Q :=
  match estimator with
  | Exact => (list_min x rest, list_max x rest)
  | Bootstrap =>
      bootstrap os_entropy (x :: rest) false_positive_rate num_samples random_seed
  | Quantiles =>
      (empirical_quantile (x :: rest) (false_positive_rate / 2),
       empirical_quantile (x :: rest) (1 - false_positive_rate / 2))
  | Kde => kde_interval (x :: rest) false_positive_rate
  end.

(** The estimator's contract. A false-positive rate outside [0, 1) or a
    sample count that is not positive is refused; so is an empty series,
    which the spec leaves open. *)
Definition estimate (os_entropy : Z) (values : list Q) (false_positive_rate : Q)
    (estimator : estimator_kind) (num_samples : Z) (random_seed : option Z)
    (truncate_values : truncation) (round_decimals : option Z)
  : outcome (Q * Q) :=
  if negb (Qle_bool 0 false_positive_rate
           && negb (Qle_bool 1 false_positive_rate))
     || (num_samples <=? 0)%Z
  then Err InvalidEstimatorConfigError
  else
    match values with
    | [] => Err InvalidEstimatorConfigError
    | x :: rest =>
        Ok (round_bounds round_decimals
              (truncate truncate_values
                 (interval os_entropy estimator x rest false_positive_rate
                    num_samples random_seed)))
    end.

End Estimator.

(** *** Domains and the binding environment *)

Local Open Scope string_scope.
Local Open Scope list_scope.
Local Open Scope Q_scope.

Record Domain := {
  domain_type : string;
  domain_kwargs : value
}.

Definition domain_value (d : Domain) : value :=
  VDict [("domain_type", VStr (domain_type d));
         ("domain_kwargs", domain_kwargs d)].

(** The environment references are resolved in: the rule's variables,
    the domain at hand and the parameters computed for it so far. *)
Record Env := {
  env_variables : value;
  env_domain : Domain;
  env_parameters : value
}.

Definition env_value (e : Env) : value :=
  VDict [("variables", env_variables e);
         ("domain", domain_value (env_domain e));
         ("parameter", env_parameters e)].

Definition with_parameter (e : Env) (name : string) (node : value) : Env :=
  {| env_variables := env_variables e;
     env_domain := env_domain e;
     env_parameters := set_path (split_on "." name) node (env_parameters e) |}.

(** A field of a builder's configuration, resolved; an absent field is
    [None]. *)
Definition config_field (e : Env) (cfg : value) (key : string) : outcome value :=
  match field key cfg with
  | Some v => resolve (env_value e) v
  | None => Ok VNone
  end.

Definition string_field (cfg : value) (key : string) : outcome string :=
  match field key cfg with
  | Some (VStr s) => Ok s
  | _ => Err (ConfigurationResolutionError key)
  end.

Definition list_field (cfg : value) (key : string) : list value :=
  match field key cfg with
  | Some (VList l) => l
  | _ => []
  end.

(** *** Domain builder

    Modelled from the spec: the Domain Builder (section 4.4) is not among
    the sources. The table builder yields the one table domain, with
    empty kwargs; the column builder yields one domain per column that
    passes every filter configured, in the order of the columns. *)

Fixpoint has_suffix (suffix s : string) : bool :=
  String.eqb suffix s ||
  match s with
  | EmptyString => false
  | String _ rest => has_suffix suffix rest
  end.

Fixpoint strings_of (l : list value) : list string :=
  match l with
  | VStr s :: rest => s :: strings_of rest
  | _ :: rest => strings_of rest
  | [] => []
  end.

(** A filter that is not configured ([None] or absent) lets every
    column through. *)
Definition filter_list (cfg : value) (key : string) : option (list string) :=
  match field key cfg with
  | Some (VList l) => Some (strings_of l)
  | _ => None
  end.

Definition mem_string (x : string) (l : list string) : bool :=
  existsb (String.eqb x) l.

Definition table_domain : Domain :=
  {| domain_type := "table"; domain_kwargs := VDict [] |}.

Definition column_domain (column : string) : Domain :=
  {| domain_type := "column";
     domain_kwargs := VDict [("column", VStr column)] |}.

Section DomainBuilder.

(** The semantic type declared for a column. *)
Variable semantic_type_of : string -> string.

Definition column_passes (cfg : value) (column : string) : bool :=
  let included key (test : list string -> bool) :=
    match filter_list cfg key with Some l => test l | None => true end in
  let excluded key (test : list string -> bool) :=
    match filter_list cfg key with Some l => negb (test l) | None => true end in
  included "include_column_names" (mem_string column)
  && excluded "exclude_column_names" (mem_string column)
  && included "include_column_name_suffixes"
       (existsb (fun x => has_suffix x column))
  && excluded "exclude_column_name_suffixes"
       (existsb (fun x => has_suffix x column))
  && included "include_semantic_types" (mem_string (semantic_type_of column))
  && excluded "exclude_semantic_types" (mem_string (semantic_type_of column)).

Definition build_domains (cfg : value) (available_columns : list string)
  : outcome (list Domain) :=
  class <~ string_field cfg "class_name" ;;
  if String.eqb class "TableDomainBuilder" then Ok [table_domain]
  else if String.eqb class "ColumnDomainBuilder" then
    Ok (map column_domain (filter (column_passes cfg) available_columns))
  else Err DomainBuilderError.

End DomainBuilder.

(** *** Builders and the orchestrator *)

Definition fully_qualified_parameter_name (name : string) : string :=
  ("$parameter." ++ name)%string.

(** The details that accompany a parameter's value, a range estimate
    included. The spec lists more (estimator name, number of bootstrap
    samples, false-positive rate); the expected values of
    [test_get_metrics_and_expectations] show the metric configuration
    and the number of batches, and the test decides. *)
Definition details (metric_name : string) (metric_domain_kwargs metric_value_kwargs : value)
    (batch_ids : list string) : value :=
  VDict [("metric_configuration",
          VDict [("metric_name", VStr metric_name);
                 ("domain_kwargs", metric_domain_kwargs);
                 ("metric_value_kwargs", metric_value_kwargs);
                 ("metric_dependencies", VNone)]);
         ("num_batches", VInt (Z.of_nat (List.length batch_ids)))].

Fixpoint numbers_of (metric_name : string) (l : list value) : outcome (list Q) :=
  match l with
  | [] => Ok []
  | VNum q :: rest => qs <~ numbers_of metric_name rest ;; Ok (q :: qs)
  | _ :: _ => Err (MetricComputationError metric_name)
  end.

Definition reserved_keys : list string :=
  ["module_name"; "class_name"; "expectation_type"; "meta"; "condition";
   "validation_parameter_builder_configs"].

Definition kwargs_template (cfg : value) : list (string * value) :=
  match cfg with
  | VDict d => filter (fun kv => negb (mem_string (fst kv) reserved_keys)) d
  | _ => []
  end.

Definition merge_variables (profiler_variables rule_variables : value) : value :=
  match profiler_variables, rule_variables with
  | VDict g, VDict r => VDict (fold_left (fun acc kv => store (fst kv) (snd kv) acc) r g)
  | VDict g, _ => VDict g
  | _, r => r
  end.

Record RunResult := {
  metrics_by_domain : list (Domain * list (string * value));
  expectation_configurations : list value
}.

Section Run.

Variable rng : Type.
Variable seed_rng : Z -> rng.
Variable randint : rng -> nat -> nat * rng.
Variable reducer : list Q -> Q.
Variable empirical_quantile : list Q -> Q -> Q.
Variable kde_interval : list Q -> Q -> Q * Q.

(** The metric computation collaborator (section 6): one value per batch
    id, or no answer. *)
Variable compute : string -> value -> value -> list string -> option (list (string * value)).

Variable semantic_type_of : string -> string.
Variable os_entropy : Z.
Variable batch_ids : list string.

(** Modelled from the spec: the Metric Aggregator (section 4.2) is not
    among the sources. The series follows the order of the batches; the
    attributed values map each batch id to the value of its batch. *)
Definition aggregate (cfg : value) (e : Env)
  : outcome (list value * list (string * value) * value) :=
  metric_name <~ string_field cfg "metric_name" ;;
  metric_domain_kwargs <~
    match field "metric_domain_kwargs" cfg with
    | None | Some VNone => Ok (domain_kwargs (env_domain e))
    | Some v => resolve (env_value e) v
    end ;;
  metric_value_kwargs <~ config_field e cfg "metric_value_kwargs" ;;
  match compute metric_name metric_domain_kwargs metric_value_kwargs batch_ids with
  | None => Err (MetricComputationError metric_name)
  | Some by_batch =>
      series <~ map_outcome
                  (fun b => match lookup b by_batch with
                            | Some v => Ok v
                            | None => Err (MetricComputationError metric_name)
                            end) batch_ids ;;
      Ok (series,
          map (fun bv => (fst bv, VList [snd bv])) (combine batch_ids series),
          details metric_name metric_domain_kwargs metric_value_kwargs batch_ids)
  end.

(** Modelled from the spec: the Metric Multi-Batch Parameter Builder
    (section 4.5) is not among the sources. *)
Definition metric_multi_batch_parameter (cfg : value) (e : Env) : outcome value :=
  r <~ aggregate cfg e ;;
  let '(series, attributed, det) := r in
  Ok (VDict [("value", VList series);
             ("attributed_value", VDict attributed);
             ("details", det)]).

Definition truncation_of (v : value) : option truncation :=
  match v with
  | VNone => Some {| lower_bound := None; upper_bound := None |}
  | VDict d =>
      match as_optional_num (match lookup "lower_bound" d with Some x => x | None => VNone end),
            as_optional_num (match lookup "upper_bound" d with Some x => x | None => VNone end) with
      | Some lo, Some hi => Some {| lower_bound := lo; upper_bound := hi |}
      | _, _ => None
      end
  | _ => None
  end.

Definition optional_int (v : value) : option (option Z) :=
  match v with
  | VNone => Some None
  | _ => match as_int v with Some z => Some (Some z) | None => None end
  end.

(** Modelled from the spec: the Numeric Metric Range Multi-Batch
    Parameter Builder (section 4.5) is not among the sources. It fetches
    the series, has the estimator bound it, and exposes the bounds as
    [value[0]] and [value[1]]. *)
Definition numeric_metric_range_parameter (cfg : value) (e : Env) : outcome value :=
  r <~ aggregate cfg e ;;
  let '(series, _, det) := r in
  metric_name <~ string_field cfg "metric_name" ;;
  values <~ numbers_of metric_name series ;;
  false_positive_rate <~ config_field e cfg "false_positive_rate" ;;
  estimator <~ config_field e cfg "estimator" ;;
  num_bootstrap_samples <~ config_field e cfg "num_bootstrap_samples" ;;
  bootstrap_random_seed <~ config_field e cfg "bootstrap_random_seed" ;;
  truncate_values <~ config_field e cfg "truncate_values" ;;
  round_decimals <~ config_field e cfg "round_decimals" ;;
  match false_positive_rate,
        match estimator with VStr s => estimator_of_string s | _ => None end,
        as_int num_bootstrap_samples,
        optional_int bootstrap_random_seed,
        truncation_of truncate_values,
        optional_int round_decimals with
  | VNum fpr, Some kind, Some n, Some seed, Some t, Some d =>
      bounds <~ estimate rng seed_rng randint reducer empirical_quantile kde_interval
                  os_entropy values fpr kind n seed t d ;;
      Ok (VDict [("value", VList [VNum (fst bounds); VNum (snd bounds)]);
                 ("details", det)])
  | _, _, _, _, _, _ => Err InvalidEstimatorConfigError
  end.

(** A builder entry selects its strategy by [class_name]. *)
Definition build_parameter (e : Env) (cfg : value) : outcome (string * value) :=
  name <~ string_field cfg "name" ;;
  class <~ string_field cfg "class_name" ;;
  node <~
    (if String.eqb class "MetricMultiBatchParameterBuilder"
     then metric_multi_batch_parameter cfg e
     else if String.eqb class "NumericMetricRangeMultiBatchParameterBuilder"
     then numeric_metric_range_parameter cfg e
     else Err (ConfigurationResolutionError "class_name")) ;;
  Ok (name, node).

(** Modelled from the spec: the Parameter Builder Pipeline (section 4.5)
    is not among the sources. Builders run in declaration order; each
    one's output is addressable by the next ones. *)
Definition build_parameters (cfgs : list value) (e : Env)
  : outcome (Env * list (string * value)) :=
  fold_outcome
    (fun acc cfg =>
       r <~ build_parameter (fst acc) cfg ;;
       Ok (with_parameter (fst acc) (fst r) (snd r),
           snd acc ++ [(fully_qualified_parameter_name (fst r), snd r)]))
    cfgs (e, []).

(** Modelled from the spec: the Expectation Configuration Builder
    (section 4.6) is not among the sources. The builder's own parameter
    builders run first; then the references of the kwargs and of [meta]
    are resolved. A condition that resolves to [False] suppresses the
    assertion. *)
Definition build_expectation_configuration (cfg : value) (e : Env)
  : outcome (option value) :=
  r <~ build_parameters (list_field cfg "validation_parameter_builder_configs") e ;;
  let e' := fst r in
  expectation_type <~ string_field cfg "expectation_type" ;;
  condition <~ config_field e' cfg "condition" ;;
  match condition with
  | VBool false => Ok None
  | _ =>
      kwargs <~ resolve (env_value e') (VDict (kwargs_template cfg)) ;;
      meta <~ config_field e' cfg "meta" ;;
      Ok (Some (VDict [("expectation_type", VStr expectation_type);
                       ("kwargs", kwargs);
                       ("meta", match meta with VNone => VDict [] | m => m end)]))
  end.

Definition run_domain (rule : value) (variables : value) (d : Domain)
  : outcome (list (string * value) * list value) :=
  let e := {| env_variables := variables; env_domain := d;
              env_parameters := VDict [] |} in
  r <~ build_parameters (list_field rule "parameter_builders") e ;;
  configs <~ map_outcome (fun cfg => build_expectation_configuration cfg (fst r))
               (list_field rule "expectation_configuration_builders") ;;
  Ok (snd r, flat_map (fun c => match c with Some x => [x] | None => [] end) configs).

Definition run_rule (profiler_variables : value) (available_columns : list string)
    (acc : RunResult) (rule : value) : outcome RunResult :=
  let variables :=
    merge_variables profiler_variables
      (match field "variables" rule with Some v => v | None => VDict [] end) in
  builder <~ match field "domain_builder" rule with
             | Some b => Ok b
             | None => Err DomainBuilderError
             end ;;
  domains <~ build_domains semantic_type_of builder available_columns ;;
  fold_outcome
    (fun acc d =>
       r <~ run_domain rule variables d ;;
       Ok {| metrics_by_domain := metrics_by_domain acc ++ [(d, fst r)];
             expectation_configurations :=
               expectation_configurations acc ++ snd r |})
    domains acc.

(** Modelled from the spec: the Rule / Profiler Orchestrator (section
    4.7) is not among the sources. Rules run in declaration order, the
    domains of each in the order its domain builder gives; what they
    emit is collected in that order. A failure ends the run: no partial
    result is returned (section 7). *)
Definition run (profiler_config : value) (available_columns : list string)
  : outcome RunResult :=
  let profiler_variables :=
    match field "variables" profiler_config with Some v => v | None => VDict [] end in
  let rules :=
    match field "rules" profiler_config with Some (VDict r) => map snd r | _ => [] end in
  fold_outcome (run_rule profiler_variables available_columns) rules
    {| metrics_by_domain := []; expectation_configurations := [] |}.

End Run.

End Profiler.

(** ** [test_get_metrics_and_expectations]: the values the test expects *)

Module VolumeDataAssistantTest.
Import Profiler.
Local Open Scope string_scope.
Local Open Scope list_scope.
Local Open Scope Z_scope.

(** The ids of the 36 batches, in the order of every [attributed_value]. *)
Definition batch_ids : list string := [
  "0327cfb13205ec8512e1c28e438ab43b"; "08085632aff9ce4cebbb8023049e1aec";
  "0808e185a52825d22356de2fe00a8f5f"; "33d910f95326c0c7dfe7536d1cfeba51";
  "3692b23382fd4734215465251290c65b"; "44c1b1947c9049e7db62c5320dde4c63";
  "47157bdaf05a7992473cd699cabaef74"; "562969eaef9c843cb4531aecbc13bbcb";
  "569a4a80bf434c888593c651dbf2f157"; "57c04d62ada3a102248b48f34c755159";
  "58ce3b40d384eacd9bad7d916eb8f705"; "61e4931d87cb627df2a19b8bc5819b7b";
  "6c7e43619fe5e6963e8159cc84a28321"; "73612fdabd337d5a8279acc30ce22d00";
  "7b3ce20a8e8cf3097bb9df270a7ae63a"; "816b147dcf3305839f723a131b9ad6af";
  "84000630d1b69a0fe870c94fb26a32bc"; "8ce0d477f610ea18e2ea4fbbb46de857";
  "90bb41c1fbd7c71c05dbc8695320af71"; "940576153c66af14a949fd19aedd5f5b";
  "976b121b46db6967854b9c1a6628396b"; "9e58d3c72c7006b6f5800b623fbc9818";
  "ab05b4fb82e37c8cf5b1ac40d0a37fe9"; "ad2ad2a70c3e0bf94ddef3f893e92291";
  "b20800a7faafd2808d6c888577a2ba1d"; "bb54e4fa3906387218be10cff631a7c2";
  "bb81456ec79522bf02f34b02762f95e0"; "c4fe9afce1cf3e83eb8518a9f5abc754";
  "c92d0679f769ac83fef2bb5eaac5d12a"; "ce5f02ac408b7b5c500050190f549736";
  "e20c38f98b9830a40b851939ca7189d4"; "eff8910cddcdff62e4741243099240d5";
  "f2e4d3da6556638b55df8ce509b094c2"; "f67d274202366f6b976414c950ca14bd";
  "f6c389dcef63c1f214c30f66b66945c0"; "ff5a6cc031dd2c98b8bccd4766af38c1"].

(** The [value] of each domain's metric parameter, batch by batch; the
    [None] column is the table. *)
Definition series : list (option string * list Z) := [
  (None,
   [
    10000; 10000; 10000; 10000; 10000; 10000; 10000; 10000; 10000; 10000;
    10000; 10000; 10000; 10000; 10000; 10000; 10000; 10000; 10000; 10000;
    10000; 10000; 10000; 10000; 10000; 10000; 10000; 10000; 10000; 10000;
    10000; 10000; 10000; 10000; 10000; 10000]);
  (Some "vendor_id",
   [
    3; 3; 3; 2; 2; 3; 3; 2; 2; 2; 3; 2; 3; 2; 2; 2; 2; 2; 3; 2; 3; 3; 2; 2;
    2; 3; 3; 2; 2; 3; 2; 2; 3; 2; 2; 2]);
  (Some "pickup_datetime",
   [
    9973; 9968; 9977; 9981; 9976; 9974; 9974; 9965; 9974; 9970; 9977; 9973;
    9984; 9955; 9945; 9977; 9969; 9953; 9976; 9955; 9977; 9970; 9962; 9941;
    9976; 9972; 9975; 9976; 9979; 9977; 9980; 9982; 9983; 9981; 9979; 9973]);
  (Some "dropoff_datetime",
   [
    9972; 9976; 9967; 9984; 9975; 9977; 9971; 9977; 9972; 9967; 9972; 9977;
    9976; 9964; 9968; 9976; 9971; 9965; 9973; 9978; 9986; 9982; 9970; 9939;
    9974; 9975; 9978; 9984; 9979; 9982; 9977; 9975; 9985; 9973; 9979; 9966]);
  (Some "passenger_count",
   [
    6; 7; 7; 7; 8; 7; 7; 7; 7; 7; 8; 7; 7; 7; 7; 7; 7; 7; 7; 7; 7; 8; 7; 7;
    7; 7; 7; 7; 7; 7; 7; 7; 8; 7; 7; 7]);
  (Some "trip_distance",
   [
    1184; 1192; 1200; 1279; 1249; 1252; 1236; 1141; 1165; 1188; 1206; 1230;
    1240; 1273; 1253; 1204; 1196; 1430; 1225; 1319; 1222; 1266; 1207; 1560;
    1310; 1212; 1293; 1202; 1157; 1299; 1202; 1228; 1227; 1190; 1176; 1371]);
  (Some "rate_code_id",
   [
    7; 6; 5; 5; 5; 6; 6; 5; 5; 6; 6; 5; 5; 6; 5; 5; 5; 6; 5; 5; 5; 6; 5; 6;
    5; 6; 6; 5; 5; 5; 6; 5; 5; 6; 6; 6]);
  (Some "store_and_fwd_flag",
   [
    2; 2; 2; 2; 2; 2; 2; 2; 2; 2; 2; 2; 2; 2; 2; 2; 2; 2; 2; 2; 2; 2; 2; 2;
    2; 2; 2; 2; 2; 2; 2; 2; 2; 2; 2; 2]);
  (Some "pickup_location_id",
   [
    151; 146; 155; 144; 150; 136; 134; 118; 124; 195; 141; 144; 137; 208;
    157; 187; 199; 211; 145; 209; 138; 143; 193; 214; 154; 151; 154; 119;
    118; 155; 133; 142; 133; 146; 132; 212]);
  (Some "dropoff_location_id",
   [
    199; 192; 205; 203; 204; 203; 203; 197; 196; 222; 205; 198; 202; 234;
    207; 230; 224; 238; 205; 232; 196; 206; 224; 237; 205; 197; 217; 200;
    184; 213; 204; 206; 202; 204; 190; 233]);
  (Some "payment_type",
   [
    4; 4; 4; 4; 4; 4; 4; 4; 4; 4; 4; 4; 4; 4; 4; 4; 4; 4; 4; 4; 4; 4; 4; 4;
    4; 4; 4; 4; 4; 4; 4; 4; 4; 4; 4; 4]);
  (Some "fare_amount",
   [
    187; 170; 201; 246; 252; 176; 169; 148; 161; 568; 184; 246; 178; 797;
    296; 552; 588; 813; 202; 575; 170; 184; 571; 1500; 248; 199; 253; 153;
    153; 238; 161; 259; 168; 267; 156; 575]);
  (Some "extra",
   [
    8; 7; 10; 16; 13; 7; 6; 6; 6; 10; 6; 12; 12; 10; 14; 11; 10; 10; 12; 12;
    10; 11; 11; 11; 13; 6; 14; 6; 6; 12; 4; 12; 5; 15; 5; 13]);
  (Some "mta_tax",
   [
    4; 3; 3; 3; 4; 3; 3; 3; 3; 4; 3; 4; 3; 3; 3; 4; 3; 3; 3; 3; 3; 4; 3; 3;
    3; 3; 3; 3; 3; 3; 3; 3; 3; 3; 3; 3]);
  (Some "tip_amount",
   [
    535; 555; 597; 591; 606; 567; 576; 530; 539; 505; 601; 599; 596; 469;
    560; 515; 522; 558; 601; 530; 612; 606; 503; 466; 608; 600; 595; 574;
    532; 579; 559; 572; 557; 576; 573; 539]);
  (Some "tolls_amount",
   [
    22; 19; 26; 32; 26; 26; 24; 24; 28; 22; 26; 23; 27; 19; 20; 16; 20; 30;
    20; 22; 27; 23; 21; 22; 28; 24; 27; 21; 20; 31; 25; 27; 23; 29; 24; 27]);
  (Some "improvement_surcharge",
   [
    3; 3; 3; 3; 3; 3; 3; 3; 3; 3; 3; 3; 3; 3; 3; 3; 3; 3; 3; 3; 3; 3; 3; 3;
    3; 3; 3; 3; 3; 3; 3; 3; 3; 3; 3; 3]);
  (Some "total_amount",
   [
    942; 972; 1016; 1070; 1060; 966; 973; 884; 905; 1161; 1000; 1068; 1012;
    1387; 1060; 1154; 1164; 1440; 1016; 1153; 1026; 1044; 1154; 2018; 1073;
    1043; 1077; 953; 898; 1047; 945; 1037; 969; 1036; 942; 1154]);
  (Some "congestion_surcharge",
   [
    1; 0; 3; 3; 3; 0; 0; 0; 0; 3; 0; 3; 4; 3; 3; 3; 3; 3; 3; 3; 3; 3; 3; 3;
    3; 0; 3; 0; 0; 3; 0; 4; 0; 3; 0; 3])].

(** [expected_metrics_by_domain]: one entry per domain, of one parameter.
    In the test every entry is written out; all of them have this shape:
    [attributed_value] pairs each batch id with the one-element list of
    the value at the same position, and [details] names the metric, the
    domain kwargs and the 36 batches. *)
Definition expected_parameter_node (metric_name : string) (domain_kwargs : value)
    (values : list Z) : value :=
  VDict [
    ("value", VList (map VInt values));
    ("attributed_value",
      VDict (map (fun bv => (fst bv, VList [VInt (snd bv)])) (combine batch_ids values)));
    ("details", VDict [
        ("metric_configuration", VDict [
            ("metric_name", VStr metric_name);
            ("domain_kwargs", domain_kwargs);
            ("metric_value_kwargs", VNone);
            ("metric_dependencies", VNone)]);
        ("num_batches", VInt 36)])].

Definition expected_metrics_by_domain
  : list (Domain * list (string * value)) :=
  map (fun entry =>
         match fst entry with
         | None =>
             ({| domain_type := "table"; domain_kwargs := VDict [] |},
              [("$parameter.table_row_count",
                expected_parameter_node "table.row_count" (VDict []) (snd entry))])
         | Some column =>
             ({| domain_type := "column";
                 domain_kwargs := VDict [("column", VStr column)] |},
              [("$parameter.column_distinct_values.count",
                expected_parameter_node "column.distinct_values.count"
                  (VDict [("column", VStr column)]) (snd entry))])
         end) series.

Section Expected.

(** [RANDOM_SEED] of [tests/rule_based_profiler/parameter_builder/conftest.py] *)
Variable RANDOM_SEED : Z.

Definition expected_expect_table_row_count_to_be_between_expectation_configuration
  : value :=
  VDict [
    ("expectation_type", VStr "expect_table_row_count_to_be_between");
    ("kwargs", VDict [("min_value", VInt 10000); ("max_value", VInt 10000)]);
    ("meta", VDict [
        ("profiler_details", VDict [
            ("metric_configuration", VDict [
                ("metric_name", VStr "table.row_count");
                ("domain_kwargs", VDict []);
                ("metric_value_kwargs", VNone);
                ("metric_dependencies", VNone)]);
            ("num_batches", VInt 36)])])].

Definition expected_expect_column_unique_value_count_to_be_between_expectation_configuration_list
  : list value := [
  VDict [
      ("meta", VDict [
          ("profiler_details", VDict [
              ("metric_configuration", VDict [
                  ("metric_name", VStr "column.distinct_values.count");
                  ("domain_kwargs", VDict [("column", VStr "vendor_id")]);
                  ("metric_value_kwargs", VNone);
                  ("metric_dependencies", VNone)]);
              ("num_batches", VInt 36)])]);
      ("expectation_type",
        VStr "expect_column_unique_value_count_to_be_between");
      ("kwargs", VDict [
          ("strict_max", VBool false);
          ("max_value", VInt 3);
          ("strict_min", VBool false);
          ("column", VStr "vendor_id");
          ("min_value", VInt 2)])];
  VDict [
      ("meta", VDict [
          ("profiler_details", VDict [
              ("metric_configuration", VDict [
                  ("metric_name", VStr "column.distinct_values.count");
                  ("domain_kwargs",
                    VDict [("column", VStr "pickup_datetime")]);
                  ("metric_value_kwargs", VNone);
                  ("metric_dependencies", VNone)]);
              ("num_batches", VInt 36)])]);
      ("expectation_type",
        VStr "expect_column_unique_value_count_to_be_between");
      ("kwargs", VDict [
          ("strict_max", VBool false);
          ("max_value", VInt 9983);
          ("strict_min", VBool false);
          ("column", VStr "pickup_datetime");
          ("min_value", VInt 9944)])];
  VDict [
      ("meta", VDict [
          ("profiler_details", VDict [
              ("metric_configuration", VDict [
                  ("metric_name", VStr "column.distinct_values.count");
                  ("domain_kwargs",
                    VDict [("column", VStr "dropoff_datetime")]);
                  ("metric_value_kwargs", VNone);
                  ("metric_dependencies", VNone)]);
              ("num_batches", VInt 36)])]);
      ("expectation_type",
        VStr "expect_column_unique_value_count_to_be_between");
      ("kwargs", VDict [
          ("strict_max", VBool false);
          ("max_value", VInt 9985);
          ("strict_min", VBool false);
          ("column", VStr "dropoff_datetime");
          ("min_value", VInt 9957)])];
  VDict [
      ("meta", VDict [
          ("profiler_details", VDict [
              ("metric_configuration", VDict [
                  ("metric_name", VStr "column.distinct_values.count");
                  ("domain_kwargs",
                    VDict [("column", VStr "passenger_count")]);
                  ("metric_value_kwargs", VNone);
                  ("metric_dependencies", VNone)]);
              ("num_batches", VInt 36)])]);
      ("expectation_type",
        VStr "expect_column_unique_value_count_to_be_between");
      ("kwargs", VDict [
          ("strict_max", VBool false);
          ("max_value", VInt 8);
          ("strict_min", VBool false);
          ("column", VStr "passenger_count");
          ("min_value", VInt 7)])];
  VDict [
      ("meta", VDict [
          ("profiler_details", VDict [
              ("metric_configuration", VDict [
                  ("metric_name", VStr "column.distinct_values.count");
                  ("domain_kwargs", VDict [("column", VStr "trip_distance")]);
                  ("metric_value_kwargs", VNone);
                  ("metric_dependencies", VNone)]);
              ("num_batches", VInt 36)])]);
      ("expectation_type",
        VStr "expect_column_unique_value_count_to_be_between");
      ("kwargs", VDict [
          ("strict_max", VBool false);
          ("max_value", VInt 1439);
          ("strict_min", VBool false);
          ("column", VStr "trip_distance");
          ("min_value", VInt 1157)])];
  VDict [
      ("meta", VDict [
          ("profiler_details", VDict [
              ("metric_configuration", VDict [
                  ("metric_name", VStr "column.distinct_values.count");
                  ("domain_kwargs", VDict [("column", VStr "rate_code_id")]);
                  ("metric_value_kwargs", VNone);
                  ("metric_dependencies", VNone)]);
              ("num_batches", VInt 36)])]);
      ("expectation_type",
        VStr "expect_column_unique_value_count_to_be_between");
      ("kwargs", VDict [
          ("strict_max", VBool false);
          ("max_value", VInt 6);
          ("strict_min", VBool false);
          ("column", VStr "rate_code_id");
          ("min_value", VInt 5)])];
  VDict [
      ("meta", VDict [
          ("profiler_details", VDict [
              ("metric_configuration", VDict [
                  ("metric_name", VStr "column.distinct_values.count");
                  ("domain_kwargs",
                    VDict [("column", VStr "store_and_fwd_flag")]);
                  ("metric_value_kwargs", VNone);
                  ("metric_dependencies", VNone)]);
              ("num_batches", VInt 36)])]);
      ("expectation_type",
        VStr "expect_column_unique_value_count_to_be_between");
      ("kwargs", VDict [
          ("strict_max", VBool false);
          ("max_value", VInt 2);
          ("strict_min", VBool false);
          ("column", VStr "store_and_fwd_flag");
          ("min_value", VInt 2)])];
  VDict [
      ("meta", VDict [
          ("profiler_details", VDict [
              ("metric_configuration", VDict [
                  ("metric_name", VStr "column.distinct_values.count");
                  ("domain_kwargs",
                    VDict [("column", VStr "pickup_location_id")]);
                  ("metric_value_kwargs", VNone);
                  ("metric_dependencies", VNone)]);
              ("num_batches", VInt 36)])]);
      ("expectation_type",
        VStr "expect_column_unique_value_count_to_be_between");
      ("kwargs", VDict [
          ("strict_max", VBool false);
          ("max_value", VInt 212);
          ("strict_min", VBool false);
          ("column", VStr "pickup_location_id");
          ("min_value", VInt 118)])];
  VDict [
      ("meta", VDict [
          ("profiler_details", VDict [
              ("metric_configuration", VDict [
                  ("metric_name", VStr "column.distinct_values.count");
                  ("domain_kwargs",
                    VDict [("column", VStr "dropoff_location_id")]);
                  ("metric_value_kwargs", VNone);
                  ("metric_dependencies", VNone)]);
              ("num_batches", VInt 36)])]);
      ("expectation_type",
        VStr "expect_column_unique_value_count_to_be_between");
      ("kwargs", VDict [
          ("strict_max", VBool false);
          ("max_value", VInt 236);
          ("strict_min", VBool false);
          ("column", VStr "dropoff_location_id");
          ("min_value", VInt 190)])];
  VDict [
      ("meta", VDict [
          ("profiler_details", VDict [
              ("metric_configuration", VDict [
                  ("metric_name", VStr "column.distinct_values.count");
                  ("domain_kwargs", VDict [("column", VStr "payment_type")]);
                  ("metric_value_kwargs", VNone);
                  ("metric_dependencies", VNone)]);
              ("num_batches", VInt 36)])]);
      ("expectation_type",
        VStr "expect_column_unique_value_count_to_be_between");
      ("kwargs", VDict [
          ("strict_max", VBool false);
          ("max_value", VInt 4);
          ("strict_min", VBool false);
          ("column", VStr "payment_type");
          ("min_value", VInt 4)])];
  VDict [
      ("meta", VDict [
          ("profiler_details", VDict [
              ("metric_configuration", VDict [
                  ("metric_name", VStr "column.distinct_values.count");
                  ("domain_kwargs", VDict [("column", VStr "fare_amount")]);
                  ("metric_value_kwargs", VNone);
                  ("metric_dependencies", VNone)]);
              ("num_batches", VInt 36)])]);
      ("expectation_type",
        VStr "expect_column_unique_value_count_to_be_between");
      ("kwargs", VDict [
          ("strict_max", VBool false);
          ("max_value", VInt 899);
          ("strict_min", VBool false);
          ("column", VStr "fare_amount");
          ("min_value", VInt 152)])];
  VDict [
      ("meta", VDict [
          ("profiler_details", VDict [
              ("metric_configuration", VDict [
                  ("metric_name", VStr "column.distinct_values.count");
                  ("domain_kwargs", VDict [("column", VStr "extra")]);
                  ("metric_value_kwargs", VNone);
                  ("metric_dependencies", VNone)]);
              ("num_batches", VInt 36)])]);
      ("expectation_type",
        VStr "expect_column_unique_value_count_to_be_between");
      ("kwargs", VDict [
          ("strict_max", VBool false);
          ("max_value", VInt 15);
          ("strict_min", VBool false);
          ("column", VStr "extra");
          ("min_value", VInt 5)])];
  VDict [
      ("meta", VDict [
          ("profiler_details", VDict [
              ("metric_configuration", VDict [
                  ("metric_name", VStr "column.distinct_values.count");
                  ("domain_kwargs", VDict [("column", VStr "mta_tax")]);
                  ("metric_value_kwargs", VNone);
                  ("metric_dependencies", VNone)]);
              ("num_batches", VInt 36)])]);
      ("expectation_type",
        VStr "expect_column_unique_value_count_to_be_between");
      ("kwargs", VDict [
          ("strict_max", VBool false);
          ("max_value", VInt 4);
          ("strict_min", VBool false);
          ("column", VStr "mta_tax");
          ("min_value", VInt 3)])];
  VDict [
      ("meta", VDict [
          ("profiler_details", VDict [
              ("metric_configuration", VDict [
                  ("metric_name", VStr "column.distinct_values.count");
                  ("domain_kwargs", VDict [("column", VStr "tip_amount")]);
                  ("metric_value_kwargs", VNone);
                  ("metric_dependencies", VNone)]);
              ("num_batches", VInt 36)])]);
      ("expectation_type",
        VStr "expect_column_unique_value_count_to_be_between");
      ("kwargs", VDict [
          ("strict_max", VBool false);
          ("max_value", VInt 608);
          ("strict_min", VBool false);
          ("column", VStr "tip_amount");
          ("min_value", VInt 469)])];
  VDict [
      ("meta", VDict [
          ("profiler_details", VDict [
              ("metric_configuration", VDict [
                  ("metric_name", VStr "column.distinct_values.count");
                  ("domain_kwargs", VDict [("column", VStr "tolls_amount")]);
                  ("metric_value_kwargs", VNone);
                  ("metric_dependencies", VNone)]);
              ("num_batches", VInt 36)])]);
      ("expectation_type",
        VStr "expect_column_unique_value_count_to_be_between");
      ("kwargs", VDict [
          ("strict_max", VBool false);
          ("max_value", VInt 31);
          ("strict_min", VBool false);
          ("column", VStr "tolls_amount");
          ("min_value", VInt 18)])];
  VDict [
      ("meta", VDict [
          ("profiler_details", VDict [
              ("metric_configuration", VDict [
                  ("metric_name", VStr "column.distinct_values.count");
                  ("domain_kwargs",
                    VDict [("column", VStr "improvement_surcharge")]);
                  ("metric_value_kwargs", VNone);
                  ("metric_dependencies", VNone)]);
              ("num_batches", VInt 36)])]);
      ("expectation_type",
        VStr "expect_column_unique_value_count_to_be_between");
      ("kwargs", VDict [
          ("strict_max", VBool false);
          ("max_value", VInt 3);
          ("strict_min", VBool false);
          ("column", VStr "improvement_surcharge");
          ("min_value", VInt 3)])];
  VDict [
      ("meta", VDict [
          ("profiler_details", VDict [
              ("metric_configuration", VDict [
                  ("metric_name", VStr "column.distinct_values.count");
                  ("domain_kwargs", VDict [("column", VStr "total_amount")]);
                  ("metric_value_kwargs", VNone);
                  ("metric_dependencies", VNone)]);
              ("num_batches", VInt 36)])]);
      ("expectation_type",
        VStr "expect_column_unique_value_count_to_be_between");
      ("kwargs", VDict [
          ("strict_max", VBool false);
          ("max_value", VInt 1562);
          ("strict_min", VBool false);
          ("column", VStr "total_amount");
          ("min_value", VInt 896)])];
  VDict [
      ("meta", VDict [
          ("profiler_details", VDict [
              ("metric_configuration", VDict [
                  ("metric_name", VStr "column.distinct_values.count");
                  ("domain_kwargs",
                    VDict [("column", VStr "congestion_surcharge")]);
                  ("metric_value_kwargs", VNone);
                  ("metric_dependencies", VNone)]);
              ("num_batches", VInt 36)])]);
      ("expectation_type",
        VStr "expect_column_unique_value_count_to_be_between");
      ("kwargs", VDict [
          ("strict_max", VBool false);
          ("max_value", VInt 4);
          ("strict_min", VBool false);
          ("column", VStr "congestion_surcharge");
          ("min_value", VInt 0)])]].

Definition expected_expectation_suite_meta : value :=
  VDict [
    ("citations", VList [
        VDict [
          ("citation_date", VStr "2019-09-26T13:42:41.000000Z");
          ("profiler_config", VDict [
              ("name", VStr "test_volume_data_assistant");
              ("config_version", VInt 1);
              ("variables",
                VDict [("bootstrap_random_seed", VInt RANDOM_SEED)]);
              ("rules", VDict [
                  ("default_expect_table_row_count_to_be_between_rule", VDict [
                      ("domain_builder", VDict [
                          ("module_name",
                            VStr "great_expectations.rule_based_profiler.domain_builder.table_domain_builder");
                          ("class_name", VStr "TableDomainBuilder")]);
                      ("parameter_builders", VList [
                          VDict [
                            ("module_name",
                              VStr "great_expectations.rule_based_profiler.parameter_builder.metric_multi_batch_parameter_builder");
                            ("metric_name", VStr "table.row_count");
                            ("json_serialize", VBool true);
                            ("class_name",
                              VStr "MetricMultiBatchParameterBuilder");
                            ("name", VStr "table_row_count");
                            ("enforce_numeric_metric", VBool true);
                            ("metric_domain_kwargs",
                              VStr "$domain.domain_kwargs");
                            ("evaluation_parameter_builder_configs", VNone);
                            ("reduce_scalar_metric", VBool true);
                            ("replace_nan_with_zero", VBool true);
                            ("metric_value_kwargs", VNone)]]);
                      ("expectation_configuration_builders", VList [
                          VDict [
                            ("module_name",
                              VStr "great_expectations.rule_based_profiler.expectation_configuration_builder.default_expectation_configuration_builder");
                            ("max_value",
                              VStr "$parameter.row_count_range_estimator.value[1]");
                            ("class_name",
                              VStr "DefaultExpectationConfigurationBuilder");
                            ("meta", VDict [
                                ("profiler_details",
                                  VStr "$parameter.row_count_range_estimator.details")]);
                            ("condition", VNone);
                            ("validation_parameter_builder_configs", VList [
                                VDict [
                                  ("module_name",
                                    VStr "great_expectations.rule_based_profiler.parameter_builder");
                                  ("json_serialize", VBool true);
                                  ("metric_name", VStr "table.row_count");
                                  ("class_name",
                                    VStr "NumericMetricRangeMultiBatchParameterBuilder");
                                  ("false_positive_rate",
                                    VStr "$variables.false_positive_rate");
                                  ("name", VStr "row_count_range_estimator");
                                  ("enforce_numeric_metric", VBool true);
                                  ("truncate_values",
                                    VStr "$variables.truncate_values");
                                  ("round_decimals",
                                    VStr "$variables.round_decimals");
                                  ("metric_domain_kwargs", VNone);
                                  ("bootstrap_random_seed",
                                    VStr "$variables.bootstrap_random_seed");
                                  ("evaluation_parameter_builder_configs",
                                    VNone);
                                  ("num_bootstrap_samples",
                                    VStr "$variables.num_bootstrap_samples");
                                  ("reduce_scalar_metric", VBool true);
                                  ("metric_value_kwargs", VNone);
                                  ("estimator", VStr "$variables.estimator");
                                  ("replace_nan_with_zero", VBool true)]]);
                            ("min_value",
                              VStr "$parameter.row_count_range_estimator.value[0]");
                            ("expectation_type",
                              VStr "expect_table_row_count_to_be_between")]]);
                      ("variables", VDict [
                          ("false_positive_rate", VNum (1 # 20));
                          ("estimator", VStr "bootstrap");
                          ("num_bootstrap_samples", VInt 9999);
                          ("bootstrap_random_seed", VInt RANDOM_SEED);
                          ("truncate_values", VDict [
                              ("lower_bound", VInt 0);
                              ("upper_bound", VNone)]);
                          ("round_decimals", VInt 0)])]);
                  ("default_expect_column_unique_values_to_be_between_rule", VDict [
                      ("domain_builder", VDict [
                          ("exclude_column_name_suffixes", VNone);
                          ("module_name",
                            VStr "great_expectations.rule_based_profiler.domain_builder.column_domain_builder");
                          ("semantic_type_filter_class_name", VNone);
                          ("class_name", VStr "ColumnDomainBuilder");
                          ("include_semantic_types", VNone);
                          ("include_column_name_suffixes", VNone);
                          ("exclude_column_names", VNone);
                          ("exclude_semantic_types", VNone);
                          ("include_column_names", VNone);
                          ("semantic_type_filter_module_name", VNone)]);
                      ("parameter_builders", VList [
                          VDict [
                            ("module_name",
                              VStr "great_expectations.rule_based_profiler.parameter_builder.metric_multi_batch_parameter_builder");
                            ("metric_name",
                              VStr "column.distinct_values.count");
                            ("json_serialize", VBool true);
                            ("class_name",
                              VStr "MetricMultiBatchParameterBuilder");
                            ("name", VStr "column_distinct_values.count");
                            ("enforce_numeric_metric", VBool true);
                            ("metric_domain_kwargs",
                              VStr "$domain.domain_kwargs");
                            ("evaluation_parameter_builder_configs", VNone);
                            ("reduce_scalar_metric", VBool true);
                            ("replace_nan_with_zero", VBool true);
                            ("metric_value_kwargs", VNone)]]);
                      ("expectation_configuration_builders", VList [
                          VDict [
                            ("column", VStr "$domain.domain_kwargs.column");
                            ("module_name",
                              VStr "great_expectations.rule_based_profiler.expectation_configuration_builder.default_expectation_configuration_builder");
                            ("max_value",
                              VStr "$parameter.column_unique_values_range_estimator.value[1]");
                            ("class_name",
                              VStr "DefaultExpectationConfigurationBuilder");
                            ("strict_max", VStr "$variables.strict_max");
                            ("meta", VDict [
                                ("profiler_details",
                                  VStr "$parameter.column_unique_values_range_estimator.details")]);
                            ("condition", VNone);
                            ("validation_parameter_builder_configs", VList [
                                VDict [
                                  ("module_name",
                                    VStr "great_expectations.rule_based_profiler.parameter_builder");
                                  ("json_serialize", VBool true);
                                  ("metric_name",
                                    VStr "column.distinct_values.count");
                                  ("class_name",
                                    VStr "NumericMetricRangeMultiBatchParameterBuilder");
                                  ("false_positive_rate",
                                    VStr "$variables.false_positive_rate");
                                  ("name",
                                    VStr "column_unique_values_range_estimator");
                                  ("enforce_numeric_metric", VBool true);
                                  ("truncate_values",
                                    VStr "$variables.truncate_values");
                                  ("round_decimals",
                                    VStr "$variables.round_decimals");
                                  ("metric_domain_kwargs",
                                    VStr "$domain.domain_kwargs");
                                  ("bootstrap_random_seed",
                                    VStr "$variables.bootstrap_random_seed");
                                  ("evaluation_parameter_builder_configs",
                                    VNone);
                                  ("num_bootstrap_samples",
                                    VStr "$variables.num_bootstrap_samples");
                                  ("reduce_scalar_metric", VBool true);
                                  ("metric_value_kwargs", VNone);
                                  ("estimator", VStr "$variables.estimator");
                                  ("replace_nan_with_zero", VBool true)]]);
                            ("strict_min", VStr "$variables.strict_min");
                            ("min_value",
                              VStr "$parameter.column_unique_values_range_estimator.value[0]");
                            ("expectation_type",
                              VStr "expect_column_unique_value_count_to_be_between")]]);
                      ("variables", VDict [
                          ("mostly", VInt 1);
                          ("strict_min", VBool false);
                          ("strict_max", VBool false);
                          ("false_positive_rate", VNum (1 # 20));
                          ("estimator", VStr "bootstrap");
                          ("num_bootstrap_samples", VInt 9999);
                          ("bootstrap_random_seed", VInt RANDOM_SEED);
                          ("truncate_values", VDict [
                              ("lower_bound", VInt 0);
                              ("upper_bound", VNone)]);
                          ("round_decimals", VInt 0)])])])]);
          ("comment",
            VStr "Suite created by Rule-Based Profiler with the configuration included.")]])].

Definition expected_expectation_configurations : list value :=
  [expected_expect_table_row_count_to_be_between_expectation_configuration]
  ++ expected_expect_column_unique_value_count_to_be_between_expectation_configuration_list.

(** The profiler configuration the citation of the expected suite
    records. *)
Definition cited_profiler_config : value :=
  match field "citations" expected_expectation_suite_meta with
  | Some (VList (citation :: _)) =>
      match field "profiler_config" citation with
      | Some config => config
      | None => VNone
      end
  | _ => VNone
  end.

End Expected.

(** The columns of the taxi table, in the order of the column domains of
    [expected_metrics_by_domain]. *)
Definition taxi_columns : list string :=
  flat_map (fun entry => match fst entry with Some c => [c] | None => [] end) series.

(** The metric values of the taxi batches, read back from
    [expected_metrics_by_domain]: the table's row count and each
    column's count of distinct values, per batch. *)
Definition taxi_series (metric_name : string) (domain_kwargs : value)
  : option (list Z) :=
  if String.eqb metric_name "table.row_count" then
    match domain_kwargs with
    | VDict [] =>
        option_map snd (find (fun entry => match fst entry with None => true | Some _ => false end) series)
    | _ => None
    end
  else if String.eqb metric_name "column.distinct_values.count" then
    match domain_kwargs with
    | VDict [(key, VStr column)] =>
        if String.eqb key "column" then
          option_map snd
            (find (fun entry => match fst entry with
                                | Some c => String.eqb c column
                                | None => false
                                end) series)
        else None
    | _ => None
    end
  else None.

Definition taxi_metrics (metric_name : string) (domain_kwargs metric_value_kwargs : value)
    (requested : list string) : option (list (string * value)) :=
  match taxi_series metric_name domain_kwargs with
  | Some values =>
      let by_batch := combine batch_ids (map VInt values) in
      if forallb (fun b => existsb (String.eqb b) batch_ids) requested
      then Some (filter (fun bv => existsb (String.eqb (fst bv)) requested) by_batch)
      else None
  | None => None
  end.

(** The row counts of the 36 batches, as the estimator receives them. *)
Definition row_counts : list Q := repeat (10000 # 1)%Q 36.

(** [truncate_values] of the default rules' variables. *)
Definition default_truncate_values : truncation :=
  {| lower_bound := Some 0%Q; upper_bound := None |}.

(** The cited configuration with the first of its rules alone, the
    default row-count rule. *)
Definition row_count_rule_config (RANDOM_SEED : Z) : value :=
  match cited_profiler_config RANDOM_SEED with
  | VDict entries =>
      VDict (map (fun kv =>
                    if String.eqb (fst kv) "rules" then
                      match snd kv with
                      | VDict (rule :: _) => (fst kv, VDict [rule])
                      | _ => kv
                      end
                    else kv) entries)
  | v => v
  end.

(** The range builder of the row-count rule: the first validation
    parameter builder of its expectation configuration builder. *)
Definition row_count_range_builder (RANDOM_SEED : Z) : value :=
  match get_path ["rules"; "default_expect_table_row_count_to_be_between_rule"]
          (cited_profiler_config RANDOM_SEED) with
  | Some rule =>
      match list_field rule "expectation_configuration_builders" with
      | builder :: _ =>
          match list_field builder "validation_parameter_builder_configs" with
          | range_builder :: _ => range_builder
          | [] => VNone
          end
      | [] => VNone
      end
  | None => VNone
  end.

(** The variables of the row-count rule. *)
Definition row_count_variables (RANDOM_SEED : Z) : value :=
  match get_path ["rules"; "default_expect_table_row_count_to_be_between_rule";
                  "variables"] (cited_profiler_config RANDOM_SEED) with
  | Some variables => variables
  | None => VNone
  end.

(** The binding environment of the table domain before any parameter is
    built. *)
Definition table_env (variables : value) : Env :=
  {| env_variables := variables;
     env_domain := table_domain;
     env_parameters := VDict [] |}.

(** What an expectation configuration asserts and about which column. *)
Definition summary (configuration : value) : option value * option value :=
  (field "expectation_type" configuration,
   get_path ["kwargs"; "column"] configuration).

Definition profiler_details (configuration : value) : option value :=
  get_path ["meta"; "profiler_details"] configuration.

(** [x] is [v] or lies somewhere inside it. *)
Fixpoint occurs (x : value) (v : value) {struct v} : bool :=
  value_eqb x v ||
  match v with
  | VList l =>
      (fix occurs_list (l : list value) : bool :=
         match l with
         | [] => false
         | y :: rest => occurs x y || occurs_list rest
         end) l
  | VDict d =>
      (fix occurs_dict (d : list (string * value)) : bool :=
         match d with
         | [] => false
         | (_, y) :: rest => occurs x y || occurs_dict rest
         end) d
  | _ => false
  end.

(** Some string inside [v] has the form of a reference. *)
Fixpoint holds_reference (v : value) : bool :=
  match v with
  | VStr s => is_reference s
  | VList l =>
      (fix in_list (l : list value) : bool :=
         match l with
         | [] => false
         | y :: rest => holds_reference y || in_list rest
         end) l
  | VDict d =>
      (fix in_dict (d : list (string * value)) : bool :=
         match d with
         | [] => false
         | (_, y) :: rest => holds_reference y || in_dict rest
         end) d
  | _ => false
  end.

Definition keys (v : value) : list string :=
  match v with
  | VDict d => map fst d
  | _ => []
  end.

Definition domain_eqb (a b : Domain) : bool :=
  String.eqb (domain_type a) (domain_type b)
  && value_eqb (domain_kwargs a) (domain_kwargs b).

Fixpoint forall2b {A B} (f : A -> B -> bool) (l : list A) (m : list B) : bool :=
  match l, m with
  | [], [] => true
  | x :: l', y :: m' => f x y && forall2b f l' m'
  | _, _ => false
  end.

(** [metrics_by_domain == expected_metrics_by_domain] *)
Definition metrics_eqb (a b : list (Domain * list (string * value))) : bool :=
  forall2b (fun x y => domain_eqb (fst x) (fst y)
                       && value_eqb (VDict (snd x)) (VDict (snd y))) a b.

End VolumeDataAssistantTest.

(** ** A concrete numeric library, for runs that compute *)

Module Concrete.
Import Profiler.
Local Open Scope Q_scope.

(** A linear congruential generator. *)
Definition rng := Z.
Definition seed_rng (seed : Z) : rng := seed.
Definition randint (g : rng) (bound : nat) : nat * rng :=
  let g' := ((1103515245 * g + 12345) mod 2147483648)%Z in
  (Z.to_nat (g' mod Z.of_nat bound), g').

Definition mean (l : list Q) : Q :=
  Qred (fold_left Qplus l 0 / inject_Z (Z.of_nat (List.length l))).

Fixpoint insert_sorted (x : Q) (l : list Q) : list Q :=
  match l with
  | [] => [x]
  | y :: rest => if Qle_bool x y then x :: l else y :: insert_sorted x rest
  end.

(** The value at the nearest rank of the sorted sample. *)
Definition nearest_rank (l : list Q) (p : Q) : Q :=
  let sorted := fold_right insert_sorted [] l in
  let rank := Qceiling (p * inject_Z (Z.of_nat (List.length l))) in
  nth (Z.to_nat (rank - 1)) sorted 0.

Definition kde_interval (l : list Q) (p : Q) : Q * Q :=
  (nearest_rank l (p / 2), nearest_rank l (1 - p / 2)).

Definition semantic_type_of (column : string) : string := "numeric".

(** An ASCII-only reading of [str.isdigit]. *)
Definition ascii_isdigit (c : Python.codepoint) : bool :=
  ((48 <=? c) && (c <=? 57))%N.

End Concrete.

(** ** [SqlAlchemyDataSampler.sample_using_limit] *)

Module SampleUsingLimit.
Import Python SqlAlchemyDataSampler.

(** [str(z)] of an [int]. *)
Definition decimal (z : Z) : pystr :=
  str_of (NilZero.string_of_int (Z.to_int z)).

(** [str(v)] of [None], a [bool], an [int] or a [str]; the other types
    do not reach it (the validation lets no other through). *)
Definition py_str (v : pyval) : option pystr :=
  match v with
  | PyNone => Some (str_of "None")
  | PyBool true => Some (str_of "True")
  | PyBool false => Some (str_of "False")
  | PyInt z => Some (decimal z)
  | PyStr s => Some s
  | PyFloat _ | PyList _ | PyDict _ => None
  end.

(** [int(x)] of a float: towards zero. *)
Definition float_trunc (x : pyfloat) : result Z :=
  match x with
  | NaN => Raise (ValueError "cannot convert float NaN to integer")
  | Inf _ => Raise OverflowError
  | Finite m e => Return (if 0 <=? e then m * 2 ^ e else Z.quot m (2 ^ (- e)))
  end.

(** ["%d" % v]: a number is printed as an integer, anything else is a
    [TypeError]. *)
Definition format_d (v : pyval) : result pystr :=
  match v with
  | PyInt z => Return (decimal z)
  | PyBool b => Return (decimal (int_of_bool b))
  | PyFloat f => z <- float_trunc f ;; Return (decimal z)
  | PyNone | PyStr _ | PyList _ | PyDict _ => Raise TypeError
  end.

(** [s.replace(old, new)] for a one-character [old]. *)
Definition replace_char (old : codepoint) (new : pystr) (s : pystr) : pystr :=
  flat_map (fun c => if N.eqb c old then new else [c]) s.

Definition question_mark : codepoint := 63%N.

(** The text appended for Oracle, up to the number. *)
Definition rownum_prefix : pystr :=
  10%N :: str_of "AND ROWNUM <= ".

Section SampleUsingLimit.

Variable unicode_isdigit : codepoint -> bool.

(** SQLAlchemy's side: clauses and selectables, the truth value of a
    clause, the construction of the query, and its compilation to text
    for a dialect with the literals bound. Each may raise. *)
Variables Clause Selectable Dialect : Type.
Variable clause_bool : Clause -> result bool.
(** [sa.select("*").select_from(sa.table(table_name, schema=schema)).where(w)];
    [w] is [None] for the literal [True]. *)
Variable select_where : pyval -> pyval -> option Clause -> result Selectable.
(** [query.limit(n)] *)
Variable limit : Selectable -> pyval -> result Selectable.
(** [str(query.compile(dialect=dialect, compile_kwargs={"literal_binds": True}))] *)
Variable compile : Dialect -> Selectable -> result pystr.

(** [GESqlDialect.ORACLE.value] and [GESqlDialect.MSSQL.value] *)
Variables ORACLE MSSQL : string.

Record ExecutionEngine := {
  dialect_name : string;
  dialect : Dialect
}.

(** What [sample_using_limit] returns: a query as a string or as a
    SQLAlchemy object. *)
Inductive query :=
| QueryString (text : pystr)
| QueryObject (q : Selectable).

(** [if not where_clause: where_clause = True]; [None] stands for [True]
    afterwards. *)
Definition permissive (where_clause : option Clause) : result (option Clause) :=
  match where_clause with
  | None => Return None
  | Some c => b <- clause_bool c ;; Return (if b then Some c else None)
  end.

(** [sample_using_limit(self, execution_engine, batch_spec, where_clause)] *)
Definition sample_using_limit (execution_engine : ExecutionEngine)
    (batch_spec : pyval) (where_clause : option Clause) : result query :=
  where_clause <- permissive where_clause ;;
  table_name <- getitem batch_spec "table_name" ;;
  if String.eqb (dialect_name execution_engine) ORACLE then
    schema_name <- get_or_none batch_spec "schema_name" ;;
    raw_query <- select_where table_name schema_name where_clause ;;
    text <- compile (dialect execution_engine) raw_query ;;
    sampling_kwargs <- getitem batch_spec "sampling_kwargs" ;;
    n <- getitem sampling_kwargs "n" ;;
    number <- format_d n ;;
    Return (QueryString (text ++ rownum_prefix ++ number))
  else if String.eqb (dialect_name execution_engine) MSSQL then
    schema_name <- get_or_none batch_spec "schema_name" ;;
    q <- select_where table_name schema_name where_clause ;;
    sampling_kwargs <- getitem batch_spec "sampling_kwargs" ;;
    n <- getitem sampling_kwargs "n" ;;
    selectable_query <- limit q n ;;
    string_of_query <- compile (dialect execution_engine) selectable_query ;;
    sampling_kwargs <- getitem batch_spec "sampling_kwargs" ;;
    n <- getitem sampling_kwargs "n" ;;
    _ <- _validate_mssql_limit_param unicode_isdigit n ;;
    match py_str n with
    | Some text => Return (QueryString (replace_char question_mark text string_of_query))
    | None => Raise TypeError
    end
  else
    schema_name <- get_or_none batch_spec "schema_name" ;;
    q <- select_where table_name schema_name where_clause ;;
    sampling_kwargs <- getitem batch_spec "sampling_kwargs" ;;
    n <- getitem sampling_kwargs "n" ;;
    q' <- limit q n ;;
    Return (QueryObject q').

End SampleUsingLimit.

Arguments dialect_name {Dialect} _.
Arguments dialect {Dialect} _.
Arguments QueryString {Selectable} text.
Arguments QueryObject {Selectable} q.

End SampleUsingLimit.

(** ** A small SQL toolkit, for runs that compute

    A query is a table, the text of its WHERE clause and whether a limit
    was asked for; compiling it leaves the limit as a [?] placeholder,
    the way the mssql dialect does. *)

Module ConcreteSql.
Import Python.

Record selectable := {
  from_table : pystr;
  where_text : pystr;
  with_limit : bool
}.

Definition clause_bool (c : pystr) : result bool := Return true.

Definition select_where (table_name schema : pyval) (where_clause : option pystr)
  : result selectable :=
  match table_name with
  | PyStr t =>
      Return {| from_table := t;
                where_text := match where_clause with
                              | Some c => c
                              | None => str_of "1 = 1"
                              end;
                with_limit := false |}
  | _ => Raise TypeError
  end.

Definition limit (q : selectable) (n : pyval) : result selectable :=
  Return {| from_table := from_table q; where_text := where_text q;
            with_limit := true |}.

Definition compile (dialect : unit) (q : selectable) : result pystr :=
  Return (str_of "SELECT "
            ++ (if with_limit q then str_of "TOP ? " else [])
            ++ str_of "* FROM " ++ from_table q
            ++ str_of " WHERE " ++ where_text q).

End ConcreteSql.

(** ** The rules the expected suite cites *)

Module CitedRules.
Import Profiler VolumeDataAssistantTest.
Local Open Scope string_scope.
Local Open Scope list_scope.

Section Cited.

Variable RANDOM_SEED : Z.

(** The expectation configuration builder of a rule of the cited
    configuration (each rule has one). *)
Definition expectation_configuration_builder (rule : string) : value :=
  match get_path ["rules"; rule] (cited_profiler_config RANDOM_SEED) with
  | Some r =>
      match list_field r "expectation_configuration_builders" with
      | builder :: _ => builder
      | [] => VNone
      end
  | None => VNone
  end.

(** The variables of a rule of the cited configuration. *)
Definition variables (rule : string) : value :=
  match get_path ["rules"; rule; "variables"] (cited_profiler_config RANDOM_SEED) with
  | Some v => v
  | None => VNone
  end.

End Cited.

(** The rules of the cited configuration, each with the range parameter
    the [meta] of its builder refers to
    ([$parameter.<name>.details]) and the configurations the test
    expects of it. *)
Definition expected_of_rules : list (string * string * list value) :=
  [("default_expect_table_row_count_to_be_between_rule",
    "row_count_range_estimator",
    [expected_expect_table_row_count_to_be_between_expectation_configuration]);
   ("default_expect_column_unique_values_to_be_between_rule",
    "column_unique_values_range_estimator",
    expected_expect_column_unique_value_count_to_be_between_expectation_configuration_list)].

End CitedRules.

Open Scope string_scope.
Open Scope Z_scope.

(** * Properties *)

(** ** The sampler *)

Section SamplerProperties.
Import Python SqlAlchemyDataSampler.

Variable unicode_isdigit : codepoint -> bool.

Lemma validate_str (s : pystr) :
  _validate_mssql_limit_param unicode_isdigit (PyStr s) =
  if isdigit unicode_isdigit s then Return PyNone
  else Raise (InvalidConfigError msg_not_parseable).
Proof.
  unfold _validate_mssql_limit_param; simpl.
  destruct (isdigit unicode_isdigit s); reflexivity.
Qed.

Lemma validate_raises_only_InvalidConfigError (n : pyval) :
  _validate_mssql_limit_param unicode_isdigit n = Return PyNone \/
  exists msg, _validate_mssql_limit_param unicode_isdigit n = Raise (InvalidConfigError msg).
Proof.
  destruct n; try (left; reflexivity); try (right; eexists; reflexivity).
  rewrite validate_str.
  destruct (isdigit unicode_isdigit s); [left | right; eexists]; reflexivity.
Qed.

(** C9. [_validate_mssql_limit_param] raises [InvalidConfigError] exactly
    when [n] is neither an [int] nor a [str], or is a [str] that
    [isdigit] rejects (the empty string among them); on every [int],
    negative or not, and on every digit-only [str] it returns [None]. *)
Theorem validate_mssql_limit_param_raises_iff (n : pyval) :
  ((exists msg,
       _validate_mssql_limit_param unicode_isdigit n = Raise (InvalidConfigError msg))
   <->
   (isinstance_int n = false /\ isinstance_str n = false)
   \/ (exists s, n = PyStr s /\ isdigit unicode_isdigit s = false))
  /\ (forall z, _validate_mssql_limit_param unicode_isdigit (PyInt z) = Return PyNone)
  /\ (forall s, isdigit unicode_isdigit s = true ->
        _validate_mssql_limit_param unicode_isdigit (PyStr s) = Return PyNone)
  /\ isdigit unicode_isdigit [] = false.
Proof.
  split; [split |].
  - intros [msg H].
    destruct n; try (left; split; reflexivity); try discriminate H.
    right. exists s. split; [reflexivity |].
    rewrite validate_str in H.
    destruct (isdigit unicode_isdigit s); [discriminate H | reflexivity].
  - intros [[Hi Hs] | [s [-> Hd]]].
    + destruct n; try discriminate Hi; try discriminate Hs; eexists; reflexivity.
    + rewrite validate_str, Hd. eexists; reflexivity.
  - repeat split.
    + intros s Hd. rewrite validate_str, Hd. reflexivity.
Qed.

End SamplerProperties.

(** The strings the docstring's "string representation of an int" leaves
    out: a sign, nothing at all, a decimal point. *)
Example validate_rejects_signed_empty_and_decimal :
  let validate := SqlAlchemyDataSampler._validate_mssql_limit_param Concrete.ascii_isdigit in
  let refused := Python.Raise (Python.InvalidConfigError SqlAlchemyDataSampler.msg_not_parseable) in
  validate (Python.PyStr (Python.str_of "-1")) = refused
  /\ validate (Python.PyStr (Python.str_of "")) = refused
  /\ validate (Python.PyStr (Python.str_of "3.5")) = refused
  /\ validate (Python.PyStr (Python.str_of "10")) = Python.Return Python.PyNone
  /\ validate (Python.PyInt (-1)) = Python.Return Python.PyNone
  /\ validate (Python.PyFloat (Python.Finite 7 (-1))) =
     Python.Raise (Python.InvalidConfigError SqlAlchemyDataSampler.msg_not_str_or_int).
Proof. repeat split. Qed.

Section RandomSampling.
Import Python SqlAlchemyDataSampler.

Lemma bits_le_precision (n : Z) : Z.abs n < 2 ^ 53 -> bits n <= precision.
Proof.
  intros H. unfold bits, precision.
  destruct (Z.eqb_spec n 0) as [-> | Hn]; [lia |].
  assert (0 < Z.abs n) by lia.
  apply Z.log2_lt_pow2 in H; lia.
Qed.

(** An [int] of at most 53 bits is a float as it stands. *)
Lemma round_binary64_exact (n : Z) :
  Z.abs n < 2 ^ 53 -> round_binary64 n 0 = Finite n 0.
Proof.
  intros H. pose proof (bits_le_precision n H) as Hb.
  unfold round_binary64.
  replace (0 <? Z.max (bits n - precision) (emin - 0)) with false
    by (symmetry; apply Z.ltb_ge; unfold emin, precision in *; lia).
  replace (emax <? bits n + 0) with false
    by (symmetry; apply Z.ltb_ge; unfold emax, precision in *; lia).
  reflexivity.
Qed.

Lemma float_of_int_exact (n : Z) :
  Z.abs n < 2 ^ 53 -> float_of_int n = Return (Finite n 0).
Proof.
  intros H. unfold float_of_int. rewrite round_binary64_exact by exact H.
  reflexivity.
Qed.

(** [round(1.0 * n)] is [n] as long as [n] is a float exactly. *)
Lemma round_one_times_int (n : Z) :
  Z.abs n < 2 ^ 53 ->
  (product <- py_mul_int (PyFloat (Finite 1 0)) n ;; py_round product) = Return n.
Proof.
  intros H. unfold py_mul_int. rewrite float_of_int_exact by exact H.
  cbn [bind float_mul].
  rewrite Z.mul_1_l, Z.add_0_l, round_binary64_exact by exact H.
  cbn. f_equal. lia.
Qed.

Lemma py_or_falsy (p default : pyval) : truthy p = false -> py_or p default = default.
Proof. intros H. unfold py_or. rewrite H. reflexivity. Qed.

(** C10. With a falsy [p] in the sampling kwargs ([None], [0.0], ...) the
    fraction becomes [1.0], the LIMIT is [round(1.0 * num_rows)], and
    that is the whole filtered row count (as long as the count is a
    float exactly, up to [2^53]): every row, not none. *)
Theorem sample_using_random_falsy_p_takes_all_rows
    (execution_engine : SqlAlchemyExecutionEngine)
    (batch_spec sampling_kwargs : list (string * pyval))
    (table_name p : pyval) (where_clause : clause) :
  dict_get "table_name" batch_spec = Some table_name ->
  dict_get "sampling_kwargs" batch_spec = Some (PyDict sampling_kwargs) ->
  dict_get "p" sampling_kwargs = Some p ->
  truthy p = false ->
  let num_rows :=
    execute_scalar execution_engine (count_query batch_spec table_name where_clause) in
  py_or p (PyFloat (Finite 1 0)) = PyFloat (Finite 1 0)
  /\ sample_using_random execution_engine (PyDict batch_spec) where_clause =
     (sample_size <- (product <- py_mul_int (PyFloat (Finite 1 0)) num_rows ;;
                      py_round product) ;;
      Return (random_sample batch_spec table_name where_clause sample_size))
  /\ (Z.abs num_rows < 2 ^ 53 ->
      sample_using_random execution_engine (PyDict batch_spec) where_clause =
      Return (random_sample batch_spec table_name where_clause num_rows)).
Proof.
  intros Ht Hk Hp Hfalsy num_rows.
  assert (Hor : py_or p (PyFloat (Finite 1 0)) = PyFloat (Finite 1 0))
    by (apply py_or_falsy; exact Hfalsy).
  assert (Hrun :
    sample_using_random execution_engine (PyDict batch_spec) where_clause =
    (sample_size <- (product <- py_mul_int (PyFloat (Finite 1 0)) num_rows ;;
                     py_round product) ;;
     Return (random_sample batch_spec table_name where_clause sample_size))).
  { unfold sample_using_random, getitem, get_or_none.
    rewrite Ht, Hk. cbn [bind]. rewrite Hp. cbn [bind]. rewrite Hor.
    subst num_rows. unfold count_query, random_sample.
    destruct (dict_get "schema_name" batch_spec); cbn [bind];
      match goal with
      | |- context [py_mul_int ?a ?b] => destruct (py_mul_int a b) as [product | e]
      end; cbn [bind]; try reflexivity;
      destruct (py_round product); reflexivity. }
  split; [exact Hor | split; [exact Hrun |]].
  intros Hsmall. rewrite Hrun, round_one_times_int by exact Hsmall. reflexivity.
Qed.

End RandomSampling.

(** A 0% sample of a table of 1000 rows: the LIMIT is 1000. *)
Lemma sample_using_random_falsy_p_witness :
  let engine := {| SqlAlchemyDataSampler.execute_scalar := fun _ => 1000 |} in
  let spec := [("table_name", Python.PyStr (Python.str_of "taxi"));
               ("sampling_kwargs",
                Python.PyDict [("p", Python.PyFloat (Python.Finite 0 0))])] in
  SqlAlchemyDataSampler.sample_using_random engine (Python.PyDict spec)
    SqlAlchemyDataSampler.ClauseNone =
  Python.Return
    (SqlAlchemyDataSampler.random_sample spec (Python.PyStr (Python.str_of "taxi"))
       SqlAlchemyDataSampler.ClauseNone 1000).
Proof.
  intros engine spec.
  apply (sample_using_random_falsy_p_takes_all_rows engine spec
           [("p", Python.PyFloat (Python.Finite 0 0))]
           (Python.PyStr (Python.str_of "taxi"))
           (Python.PyFloat (Python.Finite 0 0))
           SqlAlchemyDataSampler.ClauseNone);
    reflexivity.
Defined.

(** [batch_spec["table_name"]] and [batch_spec["sampling_kwargs"]["p"]]
    are subscripts: without the key, [sample_using_random] raises
    [KeyError] and builds no query. *)
Theorem sample_using_random_missing_key_raises
    (execution_engine : SqlAlchemyDataSampler.SqlAlchemyExecutionEngine)
    (batch_spec : list (string * Python.pyval))
    (where_clause : SqlAlchemyDataSampler.clause) :
  (Python.dict_get "table_name" batch_spec = None ->
   SqlAlchemyDataSampler.sample_using_random execution_engine
     (Python.PyDict batch_spec) where_clause
   = Python.Raise (Python.KeyError "table_name"))
  /\ (forall table_name sampling_kwargs,
        Python.dict_get "table_name" batch_spec = Some table_name ->
        Python.dict_get "sampling_kwargs" batch_spec
        = Some (Python.PyDict sampling_kwargs) ->
        Python.dict_get "p" sampling_kwargs = None ->
        SqlAlchemyDataSampler.sample_using_random execution_engine
          (Python.PyDict batch_spec) where_clause
        = Python.Raise (Python.KeyError "p")).
Proof.
  split.
  - intros Ht. unfold SqlAlchemyDataSampler.sample_using_random, Python.getitem.
    rewrite Ht. reflexivity.
  - intros table_name sampling_kwargs Ht Hk Hp.
    unfold SqlAlchemyDataSampler.sample_using_random, Python.getitem,
      Python.get_or_none.
    rewrite Ht, Hk. cbn [Python.bind]. rewrite Hp.
    destruct (Python.dict_get "schema_name" batch_spec); reflexivity.
Qed.

(** Past [2^53] the product is rounded to a float first. *)
Example sample_using_random_beyond_float_precision :
  (Python.bind (Python.py_mul_int (Python.PyFloat (Python.Finite 1 0)) (2 ^ 53 + 1))
     Python.py_round)
  = Python.Return (2 ^ 53).
Proof. vm_compute. reflexivity. Qed.

(** ** The size of a random sample *)

Section SampleSize.
Import Python SqlAlchemyDataSampler.

Lemma div_half_even_nonneg (a k : Z) : 0 <= a -> 0 < k -> 0 <= div_half_even a k.
Proof.
  intros Ha Hk. unfold div_half_even.
  assert (0 <= a / k) by (apply Z.div_pos; lia).
  destruct (2 * (a mod k) <? k); [lia |].
  destruct (k <? 2 * (a mod k)); [lia |].
  destruct (Z.even (a / k)); lia.
Qed.

(** Rounding a quotient never passes an integer the quotient does not
    pass. *)
Lemma div_half_even_le (a k bound : Z) :
  0 < k -> a <= bound * k -> div_half_even a k <= bound.
Proof.
  intros Hk Ha. unfold div_half_even.
  pose proof (Z.div_mod a k ltac:(lia)) as Hdm.
  pose proof (Z.mod_pos_bound a k Hk) as Hr.
  assert (Hq : a / k <= bound) by nia.
  destruct (Z.ltb_spec (2 * (a mod k)) k) as [Hlt | Hge]; [exact Hq |].
  assert (a / k < bound) by nia.
  destruct (k <? 2 * (a mod k)); [lia |].
  destruct (Z.even (a / k)); lia.
Qed.

Lemma bits_le (a b : Z) : 0 <= a < 2 ^ b -> 0 <= b -> bits a <= b.
Proof.
  intros [Ha Hlt] Hb. unfold bits.
  destruct (Z.eqb_spec a 0) as [-> | Hne]; [lia |].
  rewrite Z.abs_eq by lia.
  assert (Z.log2 a < b) by (apply Z.log2_lt_pow2; lia). lia.
Qed.

(** The float product of a fraction [m * 2^e] of at most 1 and a row
    count, rounded to an [int]. *)
Lemma round_fraction_of_rows (m e n : Z) :
  0 < m <= 2 ^ (- e) -> e <= 0 -> 0 <= n < 2 ^ 53 ->
  exists size,
    (product <- py_mul_int (PyFloat (Finite m e)) n ;; py_round product) = Return size
    /\ 0 <= size <= n.
Proof.
  intros Hm He Hn.
  unfold py_mul_int. rewrite float_of_int_exact by lia.
  cbn [bind float_mul]. rewrite Z.add_0_r.
  assert (Hrounded : exists m' e',
            round_binary64 (m * n) e = Finite m' e'
            /\ e' <= 0 /\ 0 <= m' <= n * 2 ^ (- e')).
  { unfold round_binary64.
    set (shift := Z.max (bits (m * n) - precision) (emin - e)).
    assert (Hpow : 0 < 2 ^ (- e)) by (apply Z.pow_pos_nonneg; lia).
    assert (Hmn : 0 <= m * n <= n * 2 ^ (- e)) by nia.
    assert (Hbits : bits (m * n) <= 53 - e).
    { apply bits_le; [| lia].
      split; [lia |].
      replace (53 - e) with (53 + - e) by lia.
      rewrite Z.pow_add_r by lia. nia. }
    destruct (Z.ltb_spec 0 shift) as [Hshift | Hshift].
    - assert (He' : e + shift <= 0).
      { unfold shift, precision, emin in *. lia. }
      assert (Hk : 0 < 2 ^ shift) by (apply Z.pow_pos_nonneg; lia).
      assert (Hsplit : 2 ^ (- e) = 2 ^ (- (e + shift)) * 2 ^ shift).
      { rewrite <- Z.pow_add_r by lia. f_equal. lia. }
      assert (Hle : div_half_even (m * n) (2 ^ shift) <= n * 2 ^ (- (e + shift))).
      { apply div_half_even_le; [exact Hk |]. rewrite <- Z.mul_assoc, <- Hsplit. lia. }
      assert (Hge : 0 <= div_half_even (m * n) (2 ^ shift))
        by (apply div_half_even_nonneg; lia).
      assert (Hb' : bits (div_half_even (m * n) (2 ^ shift)) <= 53 - (e + shift)).
      { apply bits_le; [| lia].
        split; [lia |].
        replace (53 - (e + shift)) with (53 + - (e + shift)) by lia.
        rewrite Z.pow_add_r by lia.
        assert (0 < 2 ^ (- (e + shift))) by (apply Z.pow_pos_nonneg; lia). nia. }
      replace (emax <? bits (div_half_even (m * n) (2 ^ shift)) + (e + shift)) with false
        by (symmetry; apply Z.ltb_ge; unfold emax; lia).
      eexists _, _. split; [reflexivity |]. split; [exact He' | lia].
    - replace (emax <? bits (m * n) + e) with false
        by (symmetry; apply Z.ltb_ge; unfold emax; lia).
      eexists _, _. split; [reflexivity |]. split; [exact He | lia]. }
  destruct Hrounded as [m' [e' [-> [He' Hm']]]].
  cbn [py_round float_round].
  destruct (Z.leb_spec 0 e') as [H0 | Hneg].
  - assert (e' = 0) by lia. subst e'. cbn in Hm'. cbn [Z.pow].
    eexists. split; [reflexivity |]. change (2 ^ 0) with 1. lia.
  - assert (Hk : 0 < 2 ^ (- e')) by (apply Z.pow_pos_nonneg; lia).
    eexists. split; [reflexivity |]. split.
    + apply div_half_even_nonneg; lia.
    + apply div_half_even_le; lia.
Qed.

(** The sample never exceeds the table: for a fraction [p] between 0
    and 1 (a float [m * 2^e]) and a row count a float holds exactly,
    [sample_using_random] returns a query whose LIMIT lies between 0 and
    the number of rows the filter leaves. *)
Theorem sample_using_random_limit_is_at_most_the_row_count
    (execution_engine : SqlAlchemyExecutionEngine)
    (batch_spec sampling_kwargs : list (string * pyval))
    (table_name : pyval) (where_clause : clause) (m e : Z) :
  dict_get "table_name" batch_spec = Some table_name ->
  dict_get "sampling_kwargs" batch_spec = Some (PyDict sampling_kwargs) ->
  dict_get "p" sampling_kwargs = Some (PyFloat (Finite m e)) ->
  0 <= m <= 2 ^ (- e) ->
  let num_rows :=
    execute_scalar execution_engine (count_query batch_spec table_name where_clause) in
  0 <= num_rows < 2 ^ 53 ->
  exists sample_size,
    sample_using_random execution_engine (PyDict batch_spec) where_clause
    = Return (random_sample batch_spec table_name where_clause sample_size)
    /\ 0 <= sample_size <= num_rows.
Proof.
  intros Ht Hk Hp Hm num_rows Hn.
  assert (Hsize : exists size,
            (product <- py_mul_int (py_or (PyFloat (Finite m e)) (PyFloat (Finite 1 0)))
                          num_rows ;;
             py_round product) = Return size
            /\ 0 <= size <= num_rows).
  { destruct (Z.eqb_spec m 0) as [-> | Hne].
    - rewrite py_or_falsy by reflexivity.
      exists num_rows. split; [apply round_one_times_int; lia | lia].
    - assert (Htruthy : py_or (PyFloat (Finite m e)) (PyFloat (Finite 1 0))
                        = PyFloat (Finite m e)).
      { unfold py_or, truthy. apply Z.eqb_neq in Hne. rewrite Hne. reflexivity. }
      rewrite Htruthy.
      assert (e <= 0).
      { destruct (Z.leb_spec e 0) as [Hle | Hgt]; [exact Hle |].
        rewrite Z.pow_neg_r in Hm by lia. lia. }
      apply round_fraction_of_rows; lia. }
  destruct Hsize as [size [Hsize Hbound]].
  exists size. split; [| exact Hbound].
  unfold sample_using_random, getitem, get_or_none.
  rewrite Ht, Hk. cbn [bind]. rewrite Hp. cbn [bind].
  unfold count_query in num_rows. unfold random_sample.
  destruct (dict_get "schema_name" batch_spec); cbn [bind];
    fold num_rows;
    match goal with
    | |- context [py_mul_int ?a ?b] =>
        destruct (py_mul_int a b) as [product | err]
    end; cbn [bind] in *; try discriminate Hsize;
    rewrite Hsize; reflexivity.
Qed.

End SampleSize.

(** Half of a table of 5 rows: [round(2.5)] is 2. *)
Lemma sample_using_random_limit_is_at_most_the_row_count_witness :
  let engine := {| SqlAlchemyDataSampler.execute_scalar := fun _ => 5 |} in
  let spec := [("table_name", Python.PyStr (Python.str_of "taxi"));
               ("sampling_kwargs",
                Python.PyDict [("p", Python.PyFloat (Python.Finite 1 (-1)))])] in
  exists sample_size,
    SqlAlchemyDataSampler.sample_using_random engine (Python.PyDict spec)
      SqlAlchemyDataSampler.ClauseNone
    = Python.Return
        (SqlAlchemyDataSampler.random_sample spec (Python.PyStr (Python.str_of "taxi"))
           SqlAlchemyDataSampler.ClauseNone sample_size)
    /\ 0 <= sample_size <= 5.
Proof.
  intros engine spec.
  apply (sample_using_random_limit_is_at_most_the_row_count engine spec
           [("p", Python.PyFloat (Python.Finite 1 (-1)))]
           (Python.PyStr (Python.str_of "taxi"))
           SqlAlchemyDataSampler.ClauseNone 1 (-1));
    try reflexivity; simpl; lia.
Defined.

Section IntegerFraction.
Import Python SqlAlchemyDataSampler.

(** An [int] for [p] is a factor, and an exact one: the LIMIT is
    [p * num_rows] for every row count, beyond [2^53] as well, and is
    not held to the row count ([p = 1] takes every row, [p = 2] asks for
    twice as many as there are). *)
Theorem sample_using_random_int_p_multiplies_the_row_count
    (execution_engine : SqlAlchemyExecutionEngine)
    (batch_spec sampling_kwargs : list (string * pyval))
    (table_name : pyval) (where_clause : clause) (p : Z) :
  dict_get "table_name" batch_spec = Some table_name ->
  dict_get "sampling_kwargs" batch_spec = Some (PyDict sampling_kwargs) ->
  dict_get "p" sampling_kwargs = Some (PyInt p) ->
  p <> 0 ->
  let num_rows :=
    execute_scalar execution_engine (count_query batch_spec table_name where_clause) in
  sample_using_random execution_engine (PyDict batch_spec) where_clause
  = Return (random_sample batch_spec table_name where_clause (p * num_rows)).
Proof.
  intros Ht Hk Hp Hne num_rows.
  unfold sample_using_random, getitem, get_or_none.
  rewrite Ht, Hk. cbn [bind]. rewrite Hp. cbn [bind].
  unfold py_or, truthy. apply Z.eqb_neq in Hne. rewrite Hne. cbn [negb].
  unfold count_query in num_rows. unfold random_sample.
  destruct (dict_get "schema_name" batch_spec); reflexivity.
Qed.

End IntegerFraction.

(** [p = 2] on a table of [2^53 + 1] rows. *)
Lemma sample_using_random_int_p_multiplies_the_row_count_witness :
  let engine := {| SqlAlchemyDataSampler.execute_scalar := fun _ => 2 ^ 53 + 1 |} in
  let spec := [("table_name", Python.PyStr (Python.str_of "taxi"));
               ("sampling_kwargs", Python.PyDict [("p", Python.PyInt 2)])] in
  SqlAlchemyDataSampler.sample_using_random engine (Python.PyDict spec)
    SqlAlchemyDataSampler.ClauseNone
  = Python.Return
      (SqlAlchemyDataSampler.random_sample spec (Python.PyStr (Python.str_of "taxi"))
         SqlAlchemyDataSampler.ClauseNone (2 * (2 ^ 53 + 1))).
Proof.
  intros engine spec.
  apply (sample_using_random_int_p_multiplies_the_row_count engine spec
           [("p", Python.PyInt 2)] (Python.PyStr (Python.str_of "taxi"))
           SqlAlchemyDataSampler.ClauseNone 2);
    try reflexivity; lia.
Defined.

(** ** [sample_using_limit] *)

Section LimitSampling.
Import Python SqlAlchemyDataSampler SampleUsingLimit.

Variable unicode_isdigit : codepoint -> bool.
Variables Clause Selectable Dialect : Type.
Variable clause_bool : Clause -> result bool.
Variable select_where : pyval -> pyval -> option Clause -> result Selectable.
Variable limit : Selectable -> pyval -> result Selectable.
Variable compile : Dialect -> Selectable -> result pystr.
Variables ORACLE MSSQL : string.


Lemma string_of_uint_chars (d : Decimal.uint) (c : codepoint) :
  In c (str_of (NilEmpty.string_of_uint d)) -> (c = 45 \/ 48 <= c <= 57)%N.
Proof.
  unfold str_of.
  induction d; cbn [NilEmpty.string_of_uint list_ascii_of_string map In];
    try (intros [<- | H]; [right; vm_compute; split; discriminate | exact (IHd H)]).
  intros [].
Qed.

Lemma decimal_chars (z : Z) (c : codepoint) : In c (decimal z) -> (c = 45 \/ 48 <= c <= 57)%N.
Proof.
  unfold decimal, NilZero.string_of_int.
  destruct (Z.to_int z) as [d | d].
  - unfold NilZero.string_of_uint.
    destruct d; try apply string_of_uint_chars.
    cbn. intros [<- | []]. right. vm_compute; split; discriminate.
  - cbn [str_of list_ascii_of_string map In].
    intros [<- | H]; [left; reflexivity |].
    revert H. unfold NilZero.string_of_uint.
    destruct d; try apply string_of_uint_chars.
    cbn. intros [<- | []]. right. vm_compute; split; discriminate.
Qed.

Lemma decimal_has_no_question_mark (z : Z) : ~ In question_mark (decimal z).
Proof.
  intros H. apply decimal_chars in H. unfold question_mark in H. lia.
Qed.

Lemma replace_char_app (old : codepoint) (new a b : pystr) :
  replace_char old new (a ++ b)%list
  = (replace_char old new a ++ replace_char old new b)%list.
Proof. unfold replace_char. apply flat_map_app. Qed.

Lemma replace_char_removes (old : codepoint) (new s : pystr) :
  ~ In old new -> ~ In old (replace_char old new s).
Proof.
  intros Hnew H. unfold replace_char in H.
  apply in_flat_map in H. destruct H as [c [_ H]].
  destruct (N.eqb_spec c old) as [Heq | Hne].
  - exact (Hnew H).
  - destruct H as [Heq | []]. apply Hne. exact Heq.
Qed.

(** What passes the validation has a [str()], and a digit-only one when
    the question mark is no digit. *)
Lemma validated_limit_prints (n : pyval) :
  _validate_mssql_limit_param unicode_isdigit n = Return PyNone ->
  exists number,
    py_str n = Some number
    /\ (unicode_isdigit question_mark = false -> ~ In question_mark number).
Proof.
  destruct n as [| b | z | f | s | l | d]; try discriminate.
  - intros _. destruct b; eexists; (split; [reflexivity |]);
      intros _ H; cbn in H; repeat (destruct H as [H | H]; [discriminate H |]);
      exact H.
  - intros _. eexists. split; [reflexivity |]. intros _.
    apply decimal_has_no_question_mark.
  - rewrite validate_str.
    destruct (isdigit unicode_isdigit s) eqn:Hd; [| discriminate].
    intros _. exists s. split; [reflexivity |].
    intros Hq Hin. unfold isdigit in Hd.
    destruct s as [| c s]; [destruct Hin |].
    rewrite forallb_forall in Hd. specialize (Hd _ Hin). congruence.
Qed.


Lemma bind_Return {A B} (r : result A) (k : A -> result B) (b : B) :
  bind r k = Return b -> exists a, r = Return a /\ k a = Return b.
Proof.
  destruct r as [a | e]; [| discriminate]. intros H. exists a. split; [reflexivity | exact H].
Qed.

(** On mssql a query is returned only for a limit that passed the
    validation, as a string: the compiled text with [str(n)] in the
    place of every question mark, the limit's placeholder and any other.
    No question mark is left (Python counts none as a digit). *)
Theorem mssql_query_has_every_question_mark_replaced
    (execution_engine : ExecutionEngine Dialect) (batch_spec : pyval)
    (where_clause : option Clause) (returned : query Selectable) :
  dialect_name execution_engine <> ORACLE ->
  dialect_name execution_engine = MSSQL ->
  sample_using_limit unicode_isdigit Clause Selectable Dialect clause_bool
    select_where limit compile ORACLE MSSQL execution_engine batch_spec where_clause
  = Return returned ->
  exists sampling_kwargs n number selectable_query string_of_query,
    getitem batch_spec "sampling_kwargs" = Return sampling_kwargs
    /\ getitem sampling_kwargs "n" = Return n
    /\ _validate_mssql_limit_param unicode_isdigit n = Return PyNone
    /\ py_str n = Some number
    /\ compile (dialect execution_engine) selectable_query = Return string_of_query
    /\ returned = QueryString (replace_char question_mark number string_of_query)
    /\ (unicode_isdigit question_mark = false ->
        ~ In question_mark (replace_char question_mark number string_of_query)).
Proof.
  intros Hno Hms H. unfold sample_using_limit in H.
  apply String.eqb_neq in Hno. rewrite Hno in H.
  rewrite Hms, String.eqb_refl in H.
  apply bind_Return in H as [where' [_ H]].
  apply bind_Return in H as [table_name [_ H]].
  apply bind_Return in H as [schema_name [_ H]].
  apply bind_Return in H as [q [_ H]].
  apply bind_Return in H as [kw0 [_ H]].
  apply bind_Return in H as [n0 [_ H]].
  apply bind_Return in H as [selectable_query [_ H]].
  apply bind_Return in H as [string_of_query [Hcompile H]].
  apply bind_Return in H as [sampling_kwargs [Hkw H]].
  apply bind_Return in H as [n [Hn H]].
  apply bind_Return in H as [none [Hvalid H]].
  assert (Hvalid' : _validate_mssql_limit_param unicode_isdigit n = Return PyNone).
  { destruct (validate_raises_only_InvalidConfigError unicode_isdigit n) as [Hv | [msg Hv]];
      [exact Hv | congruence]. }
  destruct (validated_limit_prints n Hvalid') as [number [Hstr Hclean]].
  rewrite Hstr in H. injection H as <-.
  exists sampling_kwargs, n, number, selectable_query, string_of_query.
  repeat split; try assumption.
  intros Hq. apply replace_char_removes. exact (Hclean Hq).
Qed.

(** On oracle the limit goes through [%d]: after the query compiled, an
    [int] is appended as [AND ROWNUM <= n] on a line of its own,
    unvalidated, and a [str], digits or not, is a [TypeError]. *)
Theorem oracle_appends_rownum_for_an_int_only
    (execution_engine : ExecutionEngine Dialect)
    (batch_spec sampling_kwargs : list (string * pyval))
    (where_clause permissive_clause : option Clause)
    (table_name n : pyval) (raw_query : Selectable) (text : pystr) :
  dialect_name execution_engine = ORACLE ->
  permissive Clause clause_bool where_clause = Return permissive_clause ->
  dict_get "table_name" batch_spec = Some table_name ->
  select_where table_name
    (match dict_get "schema_name" batch_spec with Some s => s | None => PyNone end)
    permissive_clause = Return raw_query ->
  compile (dialect execution_engine) raw_query = Return text ->
  dict_get "sampling_kwargs" batch_spec = Some (PyDict sampling_kwargs) ->
  dict_get "n" sampling_kwargs = Some n ->
  (forall z, n = PyInt z ->
     sample_using_limit unicode_isdigit Clause Selectable Dialect clause_bool
       select_where limit compile ORACLE MSSQL execution_engine (PyDict batch_spec)
       where_clause
     = Return (QueryString (text ++ rownum_prefix ++ decimal z)%list))
  /\ (forall s, n = PyStr s ->
        sample_using_limit unicode_isdigit Clause Selectable Dialect clause_bool
          select_where limit compile ORACLE MSSQL execution_engine (PyDict batch_spec)
          where_clause
        = Raise TypeError).
Proof.
  intros Hor Hw Ht Hsel Hc Hkw Hn.
  assert (H :
    sample_using_limit unicode_isdigit Clause Selectable Dialect clause_bool
      select_where limit compile ORACLE MSSQL execution_engine (PyDict batch_spec)
      where_clause
    = (number <- format_d n ;;
       Return (QueryString (text ++ rownum_prefix ++ number)%list))).
  { unfold sample_using_limit. rewrite Hw. cbn [bind getitem get_or_none].
    rewrite Ht. cbn [bind]. rewrite Hor, String.eqb_refl.
    destruct (dict_get "schema_name" batch_spec); cbn [bind];
      rewrite Hsel; cbn [bind]; rewrite Hc; cbn [bind]; rewrite Hkw; cbn [bind getitem];
      rewrite Hn; reflexivity. }
  split.
  - intros z ->. rewrite H. reflexivity.
  - intros s ->. rewrite H. reflexivity.
Qed.

(** Whatever the dialect, a batch spec without [table_name] is a
    [KeyError] before any query is built, and one whose sampling kwargs
    have no [n] yields no query. *)
Theorem sample_using_limit_missing_key_yields_no_query
    (execution_engine : ExecutionEngine Dialect)
    (batch_spec : list (string * pyval)) (where_clause : option Clause) :
  (forall permissive_clause,
      permissive Clause clause_bool where_clause = Return permissive_clause ->
      dict_get "table_name" batch_spec = None ->
      sample_using_limit unicode_isdigit Clause Selectable Dialect clause_bool
        select_where limit compile ORACLE MSSQL execution_engine (PyDict batch_spec)
        where_clause
      = Raise (KeyError "table_name"))
  /\ (forall sampling_kwargs,
        dict_get "sampling_kwargs" batch_spec = Some (PyDict sampling_kwargs) ->
        dict_get "n" sampling_kwargs = None ->
        exists e,
          sample_using_limit unicode_isdigit Clause Selectable Dialect clause_bool
            select_where limit compile ORACLE MSSQL execution_engine (PyDict batch_spec)
            where_clause
          = Raise e).
Proof.
  split.
  - intros permissive_clause Hw Ht. unfold sample_using_limit.
    rewrite Hw. cbn [bind getitem]. rewrite Ht. reflexivity.
  - intros sampling_kwargs Hkw Hn. unfold sample_using_limit.
    destruct (permissive Clause clause_bool where_clause) as [w | e];
      [cbn [bind] | eexists; reflexivity].
    destruct (getitem (PyDict batch_spec) "table_name") as [t | e];
      [cbn [bind] | eexists; reflexivity].
    cbn [getitem] in *. rewrite Hkw in *. cbn [bind getitem] in *. rewrite Hn in *.
    destruct (get_or_none (PyDict batch_spec) "schema_name") as [schema | e].
    2: { destruct (String.eqb _ ORACLE); [| destruct (String.eqb _ MSSQL)];
         eexists; reflexivity. }
    cbn [bind].
    destruct (select_where t schema w) as [q | e].
    2: { destruct (String.eqb _ ORACLE); [| destruct (String.eqb _ MSSQL)];
         eexists; reflexivity. }
    cbn [bind].
    destruct (String.eqb _ ORACLE); [| destruct (String.eqb _ MSSQL)].
    + destruct (compile (dialect execution_engine) q); eexists; reflexivity.
    + eexists; reflexivity.
    + eexists; reflexivity.
Qed.

(** The dialect decides what comes back: a string on oracle and mssql,
    and on every other dialect the SQLAlchemy query with its limit, the
    limit being whatever the sampling kwargs hold. *)
Theorem sample_using_limit_returns_a_string_on_oracle_and_mssql_only
    (execution_engine : ExecutionEngine Dialect) (batch_spec : pyval)
    (where_clause : option Clause) (returned : query Selectable) :
  sample_using_limit unicode_isdigit Clause Selectable Dialect clause_bool
    select_where limit compile ORACLE MSSQL execution_engine batch_spec where_clause
  = Return returned ->
  ((dialect_name execution_engine = ORACLE \/ dialect_name execution_engine = MSSQL)
   -> exists text, returned = QueryString text)
  /\ (dialect_name execution_engine <> ORACLE ->
      dialect_name execution_engine <> MSSQL ->
      exists sampling_kwargs n q q',
        getitem batch_spec "sampling_kwargs" = Return sampling_kwargs
        /\ getitem sampling_kwargs "n" = Return n
        /\ limit q n = Return q'
        /\ returned = QueryObject q').
Proof.
  intros H. unfold sample_using_limit in H.
  apply bind_Return in H as [where' [_ H]].
  apply bind_Return in H as [table_name [_ H]].
  destruct (String.eqb_spec (dialect_name execution_engine) ORACLE) as [Hor | Hor].
  - apply bind_Return in H as [schema_name [_ H]].
    apply bind_Return in H as [raw_query [_ H]].
    apply bind_Return in H as [text [_ H]].
    apply bind_Return in H as [sampling_kwargs [_ H]].
    apply bind_Return in H as [n [_ H]].
    apply bind_Return in H as [number [_ H]].
    injection H as <-.
    split; [intros _; eexists; reflexivity | intros Hne; contradiction].
  - destruct (String.eqb_spec (dialect_name execution_engine) MSSQL) as [Hms | Hms].
    + apply bind_Return in H as [schema_name [_ H]].
      apply bind_Return in H as [q [_ H]].
      apply bind_Return in H as [kw0 [_ H]].
      apply bind_Return in H as [n0 [_ H]].
      apply bind_Return in H as [selectable_query [_ H]].
      apply bind_Return in H as [string_of_query [_ H]].
      apply bind_Return in H as [sampling_kwargs [_ H]].
      apply bind_Return in H as [n [_ H]].
      apply bind_Return in H as [none [_ H]].
      destruct (py_str n) as [number |]; [| discriminate].
      injection H as <-.
      split; [intros _; eexists; reflexivity | intros _ Hne; contradiction].
    + apply bind_Return in H as [schema_name [_ H]].
      apply bind_Return in H as [q [_ H]].
      apply bind_Return in H as [sampling_kwargs [Hkw H]].
      apply bind_Return in H as [n [Hn H]].
      apply bind_Return in H as [q' [Hlimit H]].
      injection H as <-.
      split; [intros [He | He]; contradiction |].
      intros _ _. exists sampling_kwargs, n, q, q'. repeat split; assumption.
Qed.

End LimitSampling.

(** A limit of ["10"] on mssql, with a question mark in the WHERE clause
    as well: both become [10]. *)
Lemma mssql_query_has_every_question_mark_replaced_witness :
  let execution_engine :=
    {| SampleUsingLimit.dialect_name := "mssql"; SampleUsingLimit.dialect := tt |} in
  let batch_spec :=
    Python.PyDict
      [("table_name", Python.PyStr (Python.str_of "taxi"));
       ("sampling_kwargs",
        Python.PyDict [("n", Python.PyStr (Python.str_of "10"))])] in
  let returned :=
    Python.str_of "SELECT TOP 10 * FROM taxi WHERE note = 'why10'" in
  SampleUsingLimit.sample_using_limit Concrete.ascii_isdigit
    Python.pystr ConcreteSql.selectable unit ConcreteSql.clause_bool
    ConcreteSql.select_where ConcreteSql.limit ConcreteSql.compile
    "oracle" "mssql" execution_engine batch_spec
    (Some (Python.str_of "note = 'why?'"))
  = Python.Return (SampleUsingLimit.QueryString returned)
  /\ ~ In SampleUsingLimit.question_mark returned.
Proof.
  intros execution_engine batch_spec returned.
  assert (Hrun :
    SampleUsingLimit.sample_using_limit Concrete.ascii_isdigit
      Python.pystr ConcreteSql.selectable unit ConcreteSql.clause_bool
      ConcreteSql.select_where ConcreteSql.limit ConcreteSql.compile
      "oracle" "mssql" execution_engine batch_spec
      (Some (Python.str_of "note = 'why?'"))
    = Python.Return (SampleUsingLimit.QueryString returned)) by reflexivity.
  split; [exact Hrun |].
  destruct (mssql_query_has_every_question_mark_replaced Concrete.ascii_isdigit
              Python.pystr ConcreteSql.selectable unit ConcreteSql.clause_bool
              ConcreteSql.select_where ConcreteSql.limit ConcreteSql.compile
              "oracle" "mssql" execution_engine batch_spec
              (Some (Python.str_of "note = 'why?'"))
              (SampleUsingLimit.QueryString returned))
    as [sampling_kwargs [n [number [selectable_query [string_of_query
         [_ [_ [_ [_ [_ [Hreturned Hclean]]]]]]]]]]].
  - discriminate.
  - reflexivity.
  - exact Hrun.
  - injection Hreturned as ->. apply Hclean. reflexivity.
Defined.

(** The same limit on oracle: ["10"] is refused, [10] is appended. *)
Lemma oracle_appends_rownum_for_an_int_only_witness :
  SampleUsingLimit.sample_using_limit Concrete.ascii_isdigit
    Python.pystr ConcreteSql.selectable unit ConcreteSql.clause_bool
    ConcreteSql.select_where ConcreteSql.limit ConcreteSql.compile
    "oracle" "mssql"
    {| SampleUsingLimit.dialect_name := "oracle"; SampleUsingLimit.dialect := tt |}
    (Python.PyDict
       [("table_name", Python.PyStr (Python.str_of "taxi"));
        ("sampling_kwargs", Python.PyDict [("n", Python.PyInt 10)])])
    None
  = Python.Return
      (SampleUsingLimit.QueryString
         (Python.str_of "SELECT * FROM taxi WHERE 1 = 1"
            ++ SampleUsingLimit.rownum_prefix ++ Python.str_of "10")%list).
Proof.
  refine (proj1 (oracle_appends_rownum_for_an_int_only Concrete.ascii_isdigit
           Python.pystr ConcreteSql.selectable unit ConcreteSql.clause_bool
           ConcreteSql.select_where ConcreteSql.limit ConcreteSql.compile
           "oracle" "mssql"
           {| SampleUsingLimit.dialect_name := "oracle"; SampleUsingLimit.dialect := tt |}
           [("table_name", Python.PyStr (Python.str_of "taxi"));
            ("sampling_kwargs", Python.PyDict [("n", Python.PyInt 10)])]
           [("n", Python.PyInt 10)]
           None None (Python.PyStr (Python.str_of "taxi")) (Python.PyInt 10)
           {| ConcreteSql.from_table := Python.str_of "taxi";
              ConcreteSql.where_text := Python.str_of "1 = 1";
              ConcreteSql.with_limit := false |}
           (Python.str_of "SELECT * FROM taxi WHERE 1 = 1")
           _ _ _ _ _ _ _) 10 eq_refl);
    reflexivity.
Defined.

(** On postgresql the toolkit's query comes back, limit and all; the
    limit ["ten"] is not looked at. *)
Lemma sample_using_limit_returns_a_string_on_oracle_and_mssql_only_witness :
  let execution_engine :=
    {| SampleUsingLimit.dialect_name := "postgresql"; SampleUsingLimit.dialect := tt |} in
  let batch_spec :=
    Python.PyDict
      [("table_name", Python.PyStr (Python.str_of "taxi"));
       ("sampling_kwargs",
        Python.PyDict [("n", Python.PyStr (Python.str_of "ten"))])] in
  let returned :=
    {| ConcreteSql.from_table := Python.str_of "taxi";
       ConcreteSql.where_text := Python.str_of "1 = 1";
       ConcreteSql.with_limit := true |} in
  SampleUsingLimit.sample_using_limit Concrete.ascii_isdigit
    Python.pystr ConcreteSql.selectable unit ConcreteSql.clause_bool
    ConcreteSql.select_where ConcreteSql.limit ConcreteSql.compile
    "oracle" "mssql" execution_engine batch_spec None
  = Python.Return (SampleUsingLimit.QueryObject returned)
  /\ exists sampling_kwargs n q q',
       Python.getitem batch_spec "sampling_kwargs" = Python.Return sampling_kwargs
       /\ Python.getitem sampling_kwargs "n" = Python.Return n
       /\ ConcreteSql.limit q n = Python.Return q'
       /\ SampleUsingLimit.QueryObject returned = SampleUsingLimit.QueryObject q'.
Proof.
  intros execution_engine batch_spec returned.
  assert (Hrun :
    SampleUsingLimit.sample_using_limit Concrete.ascii_isdigit
      Python.pystr ConcreteSql.selectable unit ConcreteSql.clause_bool
      ConcreteSql.select_where ConcreteSql.limit ConcreteSql.compile
      "oracle" "mssql" execution_engine batch_spec None
    = Python.Return (SampleUsingLimit.QueryObject returned)) by reflexivity.
  split; [exact Hrun |].
  apply (proj2 (sample_using_limit_returns_a_string_on_oracle_and_mssql_only
                  Concrete.ascii_isdigit
                  Python.pystr ConcreteSql.selectable unit ConcreteSql.clause_bool
                  ConcreteSql.select_where ConcreteSql.limit ConcreteSql.compile
                  "oracle" "mssql" execution_engine batch_spec None
                  (SampleUsingLimit.QueryObject returned) Hrun));
    discriminate.
Defined.

Section LimitSamplingOutcome.
Import Python SqlAlchemyDataSampler SampleUsingLimit.

Variable unicode_isdigit : codepoint -> bool.
Variables Clause Selectable Dialect : Type.
Variable clause_bool : Clause -> result bool.
Variable select_where : pyval -> pyval -> option Clause -> result Selectable.
Variable limit : Selectable -> pyval -> result Selectable.
Variable compile : Dialect -> Selectable -> result pystr.
Variables ORACLE MSSQL : string.

(** On mssql, once SQLAlchemy has taken the limit and compiled the
    query, the validation decides: a limit it accepts gives the text
    with the limit filled in, one it refuses gives its
    [InvalidConfigError]. A limit SQLAlchemy itself refuses never
    reaches the validation. *)
Theorem mssql_validates_the_limit_after_compiling
    (execution_engine : ExecutionEngine Dialect)
    (batch_spec sampling_kwargs : list (string * pyval))
    (where_clause permissive_clause : option Clause)
    (table_name n : pyval) (q : Selectable) :
  dialect_name execution_engine <> ORACLE ->
  dialect_name execution_engine = MSSQL ->
  permissive Clause clause_bool where_clause = Return permissive_clause ->
  dict_get "table_name" batch_spec = Some table_name ->
  select_where table_name
    (match dict_get "schema_name" batch_spec with Some s => s | None => PyNone end)
    permissive_clause = Return q ->
  dict_get "sampling_kwargs" batch_spec = Some (PyDict sampling_kwargs) ->
  dict_get "n" sampling_kwargs = Some n ->
  let sample :=
    sample_using_limit unicode_isdigit Clause Selectable Dialect clause_bool
      select_where limit compile ORACLE MSSQL execution_engine (PyDict batch_spec)
      where_clause in
  (forall e, limit q n = Raise e -> sample = Raise e)
  /\ (forall selectable_query string_of_query,
        limit q n = Return selectable_query ->
        compile (dialect execution_engine) selectable_query = Return string_of_query ->
        (_validate_mssql_limit_param unicode_isdigit n = Return PyNone ->
         exists number,
           py_str n = Some number
           /\ sample = Return (QueryString
                                 (replace_char question_mark number string_of_query)))
        /\ (forall msg,
              _validate_mssql_limit_param unicode_isdigit n
              = Raise (InvalidConfigError msg) ->
              sample = Raise (InvalidConfigError msg))).
Proof.
  intros Hno Hms Hw Ht Hsel Hkw Hn sample.
  assert (Hrun :
    sample
    = (selectable_query <- limit q n ;;
       string_of_query <- compile (dialect execution_engine) selectable_query ;;
       _ <- _validate_mssql_limit_param unicode_isdigit n ;;
       match py_str n with
       | Some text =>
           Return (QueryString (replace_char question_mark text string_of_query))
       | None => Raise TypeError
       end)).
  { subst sample. unfold sample_using_limit. rewrite Hw. cbn [bind getitem get_or_none].
    rewrite Ht. cbn [bind].
    apply String.eqb_neq in Hno. rewrite Hno, Hms, String.eqb_refl.
    destruct (dict_get "schema_name" batch_spec); cbn [bind];
      rewrite Hsel; cbn [bind]; rewrite Hkw; cbn [bind getitem]; rewrite Hn;
      cbn [bind];
      destruct (limit q n) as [selectable_query | e]; cbn [bind]; try reflexivity;
      destruct (compile (dialect execution_engine) selectable_query); reflexivity. }
  split.
  - intros e He. rewrite Hrun, He. reflexivity.
  - intros selectable_query string_of_query Hlimit Hcompile.
    rewrite Hrun, Hlimit. cbn [bind]. rewrite Hcompile. cbn [bind]. split.
    + intros Hvalid.
      destruct (validated_limit_prints unicode_isdigit n Hvalid) as [number [Hstr _]].
      rewrite Hvalid. cbn [bind]. rewrite Hstr.
      exists number. split; reflexivity.
    + intros msg Hinvalid. rewrite Hinvalid. reflexivity.
Qed.

(** [if not where_clause: where_clause = True]: a clause that counts as
    false is dropped, the query then filters nothing, as with no clause
    at all; a clause SQLAlchemy gives no truth value makes the method
    raise at once, whatever the batch spec. *)
Theorem falsy_where_clause_is_dropped
    (execution_engine : ExecutionEngine Dialect) (batch_spec : pyval)
    (where_clause : Clause) :
  (clause_bool where_clause = Return false ->
   sample_using_limit unicode_isdigit Clause Selectable Dialect clause_bool
     select_where limit compile ORACLE MSSQL execution_engine batch_spec
     (Some where_clause)
   = sample_using_limit unicode_isdigit Clause Selectable Dialect clause_bool
       select_where limit compile ORACLE MSSQL execution_engine batch_spec None)
  /\ (forall e, clause_bool where_clause = Raise e ->
        sample_using_limit unicode_isdigit Clause Selectable Dialect clause_bool
          select_where limit compile ORACLE MSSQL execution_engine batch_spec
          (Some where_clause)
        = Raise e).
Proof.
  split.
  - intros Hfalse. unfold sample_using_limit, permissive. rewrite Hfalse. reflexivity.
  - intros e He. unfold sample_using_limit, permissive. rewrite He. reflexivity.
Qed.

End LimitSamplingOutcome.

(** The limit [-5] on mssql: an [int], so it passes, and the text asks
    for the top [-5] rows. *)
Lemma mssql_validates_the_limit_after_compiling_witness :
  SampleUsingLimit.sample_using_limit Concrete.ascii_isdigit
    Python.pystr ConcreteSql.selectable unit ConcreteSql.clause_bool
    ConcreteSql.select_where ConcreteSql.limit ConcreteSql.compile
    "oracle" "mssql"
    {| SampleUsingLimit.dialect_name := "mssql"; SampleUsingLimit.dialect := tt |}
    (Python.PyDict
       [("table_name", Python.PyStr (Python.str_of "taxi"));
        ("sampling_kwargs", Python.PyDict [("n", Python.PyInt (-5))])])
    None
  = Python.Return
      (SampleUsingLimit.QueryString
         (Python.str_of "SELECT TOP -5 * FROM taxi WHERE 1 = 1")).
Proof.
  edestruct (mssql_validates_the_limit_after_compiling Concrete.ascii_isdigit
               Python.pystr ConcreteSql.selectable unit ConcreteSql.clause_bool
               ConcreteSql.select_where ConcreteSql.limit ConcreteSql.compile
               "oracle" "mssql"
               {| SampleUsingLimit.dialect_name := "mssql"; SampleUsingLimit.dialect := tt |}
               [("table_name", Python.PyStr (Python.str_of "taxi"));
                ("sampling_kwargs", Python.PyDict [("n", Python.PyInt (-5))])]
               [("n", Python.PyInt (-5))]
               None None (Python.PyStr (Python.str_of "taxi")) (Python.PyInt (-5))
               {| ConcreteSql.from_table := Python.str_of "taxi";
                  ConcreteSql.where_text := Python.str_of "1 = 1";
                  ConcreteSql.with_limit := false |})
    as [_ Hcompiled];
    [discriminate | reflexivity | reflexivity | reflexivity | reflexivity
     | reflexivity | reflexivity |].
  destruct (Hcompiled
              {| ConcreteSql.from_table := Python.str_of "taxi";
                 ConcreteSql.where_text := Python.str_of "1 = 1";
                 ConcreteSql.with_limit := true |}
              (Python.str_of "SELECT TOP ? * FROM taxi WHERE 1 = 1"))
    as [Hvalid _]; [reflexivity | reflexivity |].
  destruct Hvalid as [number [Hnumber Hrun]]; [reflexivity |].
  injection Hnumber as <-. exact Hrun.
Defined.

(** ** [get_validator_with_expectation_suite] *)

Section GetValidatorProperties.
Import Python TestUtils.

Variables BatchRequest Validator : Type.
Variable materialize_batch_request : BatchRequest -> M BatchRequest.
Variable get_validator : BatchRequest -> option string -> M Validator.
Variable uuid4 : string.

(** C8. Given both a suite and a suite name that differ, the helper
    raises [ValueError] ("Mutually inconsistent ..."): it prefers
    neither, and leaves the data context as it was. *)
Theorem mismatched_suite_and_name_raise
    (batch_request : BatchRequest) (suite : ExpectationSuite) (name : string)
    (component_name : option string) (w : World) :
  expectation_suite_name suite <> name ->
  get_validator_with_expectation_suite BatchRequest Validator
    materialize_batch_request get_validator uuid4
    batch_request (Some suite) (Some name) component_name w
  = (Raise (ValueError msg_mutually_inconsistent), w).
Proof.
  intros Hne.
  unfold get_validator_with_expectation_suite, mbind.
  destruct (String.eqb_spec (expectation_suite_name suite) name) as [Heq | _].
  - contradiction.
  - reflexivity.
Qed.

(** With matching names the helper goes on to the data context. *)
Lemma matching_suite_and_name_proceed
    (batch_request : BatchRequest) (suite : ExpectationSuite)
    (component_name : option string) (w : World) :
  get_validator_with_expectation_suite BatchRequest Validator
    materialize_batch_request get_validator uuid4
    batch_request (Some suite) (Some (expectation_suite_name suite)) component_name w
  = (batch_request' <-- materialize_batch_request batch_request ;;
     get_validator batch_request' (Some (expectation_suite_name suite))) w.
Proof.
  unfold get_validator_with_expectation_suite, mbind, ret.
  rewrite String.eqb_refl. reflexivity.
Qed.

(** With a suite and no name the helper neither reads nor creates a
    suite, and asks the data context for a validator with no suite name:
    the suite it was given is not passed on. *)
Theorem suite_without_name_is_not_passed_on
    (batch_request : BatchRequest) (suite : ExpectationSuite)
    (component_name : option string) (w : World) :
  get_validator_with_expectation_suite BatchRequest Validator
    materialize_batch_request get_validator uuid4
    batch_request (Some suite) None component_name w
  = (batch_request' <-- materialize_batch_request batch_request ;;
     get_validator batch_request' None) w.
Proof.
  unfold get_validator_with_expectation_suite.
  cbn [mbind ret]. unfold mbind.
  destruct (materialize_batch_request batch_request w) as [[batch_request' | e] w'];
    reflexivity.
Qed.

(** With neither a suite nor a name the helper makes up the name
    [tmp.<component>.suite_<first 8 characters of a uuid>] (the
    component is "test" when none or an empty one is given); when the
    data context has no suite of that name it creates one, says so, and
    asks for a validator under that name. *)
Theorem neither_suite_nor_name_creates_a_temporary_suite
    (batch_request : BatchRequest) (component_name : option string) (w : World) :
  let name := temporary_suite_name uuid4 component_name in
  find_suite name (suites w) = None ->
  get_validator_with_expectation_suite BatchRequest Validator
    materialize_batch_request get_validator uuid4
    batch_request None None component_name w
  = (batch_request' <-- materialize_batch_request batch_request ;;
     get_validator batch_request' (Some name))
      {| suites :=
           (name, {| expectation_suite_name := name; expectations := [] |})
           :: suites w;
         stdout :=
           stdout w
           ++ [("Created ExpectationSuite " ++ quote ++ name ++ quote ++ ".")%string] |}.
Proof.
  intros name Hnone.
  assert (Hname :
    (if not_component_name component_name then "test"
     else match component_name with Some c => c | None => "test" end)
    = match component_name with
      | Some c => if String.eqb c "" then "test" else c
      | None => "test"
      end).
  { destruct component_name as [c |]; [| reflexivity].
    unfold not_component_name. destruct (String.eqb c ""); reflexivity. }
  unfold get_validator_with_expectation_suite.
  cbn [mbind ret]. rewrite Hname. fold (temporary_suite_name uuid4 component_name).
  fold name. unfold mbind at 1 2.
  unfold except_DataContextError, mbind, get_expectation_suite.
  rewrite Hnone. cbn. reflexivity.
Qed.

End GetValidatorProperties.

(** The notebook's call: no suite, no name, component
    [volume_data_assistant], an empty data context. *)
Lemma neither_suite_nor_name_creates_a_temporary_suite_witness :
  TestUtils.get_validator_with_expectation_suite unit (option string)
    (fun b => TestUtils.ret b) (fun _ name => TestUtils.ret name)
    "01234567-89ab-cdef-0123-456789abcdef"
    tt None None (Some "volume_data_assistant")
    {| TestUtils.suites := []; TestUtils.stdout := [] |}
  = (Python.Return (Some "tmp.volume_data_assistant.suite_01234567"),
     {| TestUtils.suites :=
          [("tmp.volume_data_assistant.suite_01234567",
            {| TestUtils.expectation_suite_name :=
                 "tmp.volume_data_assistant.suite_01234567";
               TestUtils.expectations := [] |})];
        TestUtils.stdout :=
          [("Created ExpectationSuite " ++ TestUtils.quote
              ++ "tmp.volume_data_assistant.suite_01234567"
              ++ TestUtils.quote ++ ".")%string] |}).
Proof.
  apply (neither_suite_nor_name_creates_a_temporary_suite unit (option string)
           (fun b => TestUtils.ret b) (fun _ name => TestUtils.ret name)
           "01234567-89ab-cdef-0123-456789abcdef" tt
           (Some "volume_data_assistant")
           {| TestUtils.suites := []; TestUtils.stdout := [] |}).
  reflexivity.
Defined.

(** A suite named [my_suite] passed along with the name [other_suite]. *)
Lemma mismatched_suite_and_name_raise_witness :
  TestUtils.get_validator_with_expectation_suite unit unit
    (fun b => TestUtils.ret b) (fun _ _ => TestUtils.ret tt) "0123456789abcdef"
    tt
    (Some {| TestUtils.expectation_suite_name := "my_suite";
             TestUtils.expectations := [] |})
    (Some "other_suite") (Some "volume_data_assistant")
    {| TestUtils.suites := []; TestUtils.stdout := [] |}
  = (Python.Raise (Python.ValueError TestUtils.msg_mutually_inconsistent),
     {| TestUtils.suites := []; TestUtils.stdout := [] |}).
Proof.
  apply (mismatched_suite_and_name_raise unit unit
           (fun b => TestUtils.ret b) (fun _ _ => TestUtils.ret tt)
           "0123456789abcdef" tt
           {| TestUtils.expectation_suite_name := "my_suite";
              TestUtils.expectations := [] |}
           "other_suite" (Some "volume_data_assistant")
           {| TestUtils.suites := []; TestUtils.stdout := [] |}).
  discriminate.
Defined.

(** ** The data context under [get_validator_with_expectation_suite] *)

Section DataContextInvariants.
Import Python TestUtils.

Variables BatchRequest Validator : Type.
Variable materialize_batch_request : BatchRequest -> M BatchRequest.
Variable get_validator : BatchRequest -> option string -> M Validator.
Variable uuid4 : string.

(** Materializing a batch request and getting a validator store no
    suite and print nothing. *)
Hypothesis materialize_batch_request_keeps_the_context :
  forall b w, snd (materialize_batch_request b w) = w.
Hypothesis get_validator_keeps_the_context :
  forall b name w, snd (get_validator b name w) = w.

Lemma validator_keeps_the_context (b : BatchRequest) (name : option string) (w : World) :
  snd ((b' <-- materialize_batch_request b ;; get_validator b' name) w) = w.
Proof.
  unfold mbind.
  pose proof (materialize_batch_request_keeps_the_context b w) as Hm.
  destruct (materialize_batch_request b w) as [[b' | e] w1]; cbn in Hm; subst w1.
  - apply get_validator_keeps_the_context.
  - reflexivity.
Qed.

(** The world after the get-or-create step for [name]. *)
Lemma get_or_create_then_validator (b : BatchRequest) (name : string) (w : World) :
  snd ((_ <-- except_DataContextError
                (_ <-- get_expectation_suite name ;; ret tt)
                (suite <-- create_expectation_suite name ;;
                 print ("Created ExpectationSuite " ++ quote
                          ++ expectation_suite_name suite ++ quote ++ ".")) ;;
        b' <-- materialize_batch_request b ;;
        get_validator b' (Some name)) w)
  = match find_suite name (suites w) with
    | Some _ => w
    | None =>
        {| suites := (name, {| expectation_suite_name := name; expectations := [] |})
                     :: suites w;
           stdout := (stdout w
                      ++ [("Created ExpectationSuite " ++ quote ++ name ++ quote ++ ".")%string])%list |}
    end.
Proof.
  unfold mbind at 1.
  unfold except_DataContextError, mbind at 1, get_expectation_suite.
  destruct (find_suite name (suites w)) as [s |].
  - cbn [ret]. apply validator_keeps_the_context.
  - unfold mbind at 1, create_expectation_suite, print. cbn [expectation_suite_name suites stdout].
    apply validator_keeps_the_context.
Qed.

Lemma find_suite_after_creation (name other : string) (s stored : ExpectationSuite)
    (l : list (string * ExpectationSuite)) :
  find_suite name l = None ->
  find_suite other l = Some stored ->
  find_suite other ((name, s) :: l) = Some stored.
Proof.
  intros Hnone Hsome. cbn [find_suite].
  destruct (String.eqb_spec name other) as [-> | _]; [congruence | exact Hsome].
Qed.

(** The helper changes the data context in one way only: by creating a
    suite under a name that had none, and saying so. *)
Lemma helper_creates_or_keeps
    (batch_request : BatchRequest) (expectation_suite : option ExpectationSuite)
    (suite_name component_name : option string) (w : World) :
  let w' :=
    snd (get_validator_with_expectation_suite BatchRequest Validator
           materialize_batch_request get_validator uuid4
           batch_request expectation_suite suite_name component_name w) in
  w' = w
  \/ exists name,
       find_suite name (suites w) = None
       /\ w' = {| suites := (name, {| expectation_suite_name := name;
                                      expectations := [] |}) :: suites w;
                  stdout := (stdout w
                             ++ [("Created ExpectationSuite " ++ quote ++ name
                                    ++ quote ++ ".")%string])%list |}.
Proof.
  cbv zeta.
  destruct expectation_suite as [suite |], suite_name as [name |].
  - unfold get_validator_with_expectation_suite. unfold mbind at 1.
    destruct (negb (String.eqb (expectation_suite_name suite) name)).
    + left. reflexivity.
    + left. cbn [ret]. unfold mbind at 1. cbn [ret].
      apply validator_keeps_the_context.
  - left. unfold get_validator_with_expectation_suite.
    cbn [ret]. unfold mbind at 1 2. cbn [ret].
    apply validator_keeps_the_context.
  - pose proof (get_or_create_then_validator batch_request name w) as Hrun.
    change (snd (get_validator_with_expectation_suite BatchRequest Validator
                   materialize_batch_request get_validator uuid4
                   batch_request None (Some name) component_name w)
            = match find_suite name (suites w) with
              | Some _ => w
              | None =>
                  {| suites := (name, {| expectation_suite_name := name;
                                         expectations := [] |}) :: suites w;
                     stdout := (stdout w
                                ++ [("Created ExpectationSuite " ++ quote ++ name
                                       ++ quote ++ ".")%string])%list |}
              end) in Hrun.
    rewrite Hrun.
    destruct (find_suite name (suites w)) eqn:Hfind; [left; reflexivity |].
    right. exists name. split; [exact Hfind | reflexivity].
  - set (name := ("tmp."
                    ++ (if not_component_name component_name then "test"
                        else match component_name with Some c => c | None => "test" end)
                    ++ ".suite_" ++ substring 0 8 uuid4)%string).
    pose proof (get_or_create_then_validator batch_request name w) as Hrun.
    change (snd (get_validator_with_expectation_suite BatchRequest Validator
                   materialize_batch_request get_validator uuid4
                   batch_request None None component_name w)
            = match find_suite name (suites w) with
              | Some _ => w
              | None =>
                  {| suites := (name, {| expectation_suite_name := name;
                                         expectations := [] |}) :: suites w;
                     stdout := (stdout w
                                ++ [("Created ExpectationSuite " ++ quote ++ name
                                       ++ quote ++ ".")%string])%list |}
              end) in Hrun.
    rewrite Hrun.
    destruct (find_suite name (suites w)) eqn:Hfind; [left; reflexivity |].
    right. exists name. split; [exact Hfind | reflexivity].
Qed.

(** Whatever it is called with, the helper leaves every suite the data
    context holds as it is, under its name, and prints at most one
    line. *)
Theorem get_validator_with_expectation_suite_keeps_stored_suites
    (batch_request : BatchRequest) (expectation_suite : option ExpectationSuite)
    (suite_name component_name : option string) (w : World)
    (other : string) (stored : ExpectationSuite) :
  find_suite other (suites w) = Some stored ->
  let w' :=
    snd (get_validator_with_expectation_suite BatchRequest Validator
           materialize_batch_request get_validator uuid4
           batch_request expectation_suite suite_name component_name w) in
  find_suite other (suites w') = Some stored
  /\ exists printed,
       stdout w' = (stdout w ++ printed)%list /\ (List.length printed <= 1)%nat.
Proof.
  intros Hstored w'.
  destruct (helper_creates_or_keeps batch_request expectation_suite suite_name
              component_name w) as [Hw' | [name [Hnone Hw']]];
    fold w' in Hw'; rewrite Hw'.
  - split; [exact Hstored |]. exists []. rewrite app_nil_r.
    split; [reflexivity | cbn; lia].
  - cbn [suites stdout]. split.
    + apply find_suite_after_creation; assumption.
    + eexists. split; [reflexivity | cbn; lia].
Qed.

(** Asked for a validator under a suite name alone, the helper makes
    sure the data context holds a suite of that name: it creates one
    only when there is none, so a second call with the name finds it and
    changes nothing. *)
Theorem named_suite_is_created_at_most_once
    (batch_request batch_request' : BatchRequest) (name : string)
    (component_name component_name' : option string) (w : World) :
  let w' :=
    snd (get_validator_with_expectation_suite BatchRequest Validator
           materialize_batch_request get_validator uuid4
           batch_request None (Some name) component_name w) in
  find_suite name (suites w') <> None
  /\ (find_suite name (suites w) <> None -> w' = w)
  /\ snd (get_validator_with_expectation_suite BatchRequest Validator
            materialize_batch_request get_validator uuid4
            batch_request' None (Some name) component_name' w') = w'.
Proof.
  assert (Hrun : forall b c w0,
    snd (get_validator_with_expectation_suite BatchRequest Validator
           materialize_batch_request get_validator uuid4 b None (Some name) c w0)
    = match find_suite name (suites w0) with
      | Some _ => w0
      | None =>
          {| suites := (name, {| expectation_suite_name := name; expectations := [] |})
                       :: suites w0;
             stdout := (stdout w0
                       ++ [("Created ExpectationSuite " ++ quote ++ name ++ quote
                              ++ ".")%string])%list |}
      end).
  { intros b c w0. exact (get_or_create_then_validator b name w0). }
  intros w'.
  assert (Hfound : find_suite name (suites w') <> None).
  { subst w'. rewrite Hrun.
    destruct (find_suite name (suites w)) eqn:Hfind.
    - rewrite Hfind. discriminate.
    - cbn [suites find_suite]. rewrite String.eqb_refl. discriminate. }
  split; [exact Hfound |]. split.
  - intros Hsome. subst w'. rewrite Hrun.
    destruct (find_suite name (suites w)); [reflexivity | contradiction].
  - rewrite Hrun. destruct (find_suite name (suites w')); [reflexivity | contradiction].
Qed.

End DataContextInvariants.

(** A data context that holds [my_suite] with one expectation; the call
    of the notebook creates its temporary suite beside it. *)
Lemma get_validator_with_expectation_suite_keeps_stored_suites_witness :
  let stored :=
    {| TestUtils.expectation_suite_name := "my_suite";
       TestUtils.expectations := [Python.PyStr (Python.str_of "expect_table_row_count_to_be_between")] |} in
  let w := {| TestUtils.suites := [("my_suite", stored)]; TestUtils.stdout := [] |} in
  let w' :=
    snd (TestUtils.get_validator_with_expectation_suite unit (option string)
           (fun b => TestUtils.ret b) (fun _ name => TestUtils.ret name)
           "01234567-89ab-cdef-0123-456789abcdef"
           tt None None (Some "volume_data_assistant") w) in
  TestUtils.find_suite "my_suite" (TestUtils.suites w') = Some stored
  /\ exists printed,
       TestUtils.stdout w' = (TestUtils.stdout w ++ printed)%list
       /\ (List.length printed <= 1)%nat.
Proof.
  intros stored w.
  refine (get_validator_with_expectation_suite_keeps_stored_suites unit (option string)
            (fun b => TestUtils.ret b) (fun _ name => TestUtils.ret name)
            "01234567-89ab-cdef-0123-456789abcdef" _ _
            tt None None (Some "volume_data_assistant") w "my_suite" stored _).
  - intros b w0. reflexivity.
  - intros b name w0. reflexivity.
  - reflexivity.
Defined.

(** Two calls for [my_suite] on an empty data context: one suite, one
    line printed. *)
Lemma named_suite_is_created_at_most_once_witness :
  let w := {| TestUtils.suites := []; TestUtils.stdout := [] |} in
  let w' :=
    snd (TestUtils.get_validator_with_expectation_suite unit (option string)
           (fun b => TestUtils.ret b) (fun _ name => TestUtils.ret name)
           "01234567-89ab-cdef-0123-456789abcdef"
           tt None (Some "my_suite") None w) in
  TestUtils.find_suite "my_suite" (TestUtils.suites w') <> None
  /\ (TestUtils.find_suite "my_suite" (TestUtils.suites w) <> None -> w' = w)
  /\ snd (TestUtils.get_validator_with_expectation_suite unit (option string)
            (fun b => TestUtils.ret b) (fun _ name => TestUtils.ret name)
            "01234567-89ab-cdef-0123-456789abcdef"
            tt None (Some "my_suite") (Some "volume_data_assistant") w') = w'.
Proof.
  intros w.
  refine (named_suite_is_created_at_most_once unit (option string)
            (fun b => TestUtils.ret b) (fun _ name => TestUtils.ret name)
            "01234567-89ab-cdef-0123-456789abcdef" _ _
            tt tt "my_suite" None (Some "volume_data_assistant") w).
  - intros b w0. reflexivity.
  - intros b name w0. reflexivity.
Defined.

(** ** The rule-based profiler *)

Section ProfilerProperties.
Import Profiler VolumeDataAssistantTest.

Variable rng : Type.
Variable seed_rng : Z -> rng.
Variable randint : rng -> nat -> nat * rng.
Variable reducer : list Q -> Q.
Variable empirical_quantile : list Q -> Q -> Q.
Variable kde_interval : list Q -> Q -> Q * Q.
Variable compute : string -> value -> value -> list string -> option (list (string * value)).
Variable semantic_type_of : string -> string.
Variable os_entropy : Z.
Variable RANDOM_SEED : Z.

Lemma valid_rate (false_positive_rate : Q) (num_samples : Z) :
  (0 <= false_positive_rate)%Q -> (false_positive_rate < 1)%Q -> 0 < num_samples ->
  negb (Qle_bool 0 false_positive_rate && negb (Qle_bool 1 false_positive_rate))
  || (num_samples <=? 0) = false.
Proof.
  intros H0 H1 Hn.
  apply Qle_bool_iff in H0. rewrite H0.
  assert (Qle_bool 1 false_positive_rate = false) as ->.
  { destruct (Qle_bool 1 false_positive_rate) eqn:E; [| reflexivity].
    apply Qle_bool_iff in E. exfalso. exact (Qlt_not_le _ _ H1 E). }
  simpl. apply Z.leb_gt. exact Hn.
Qed.

(** The values of the table's row-count parameter, as the test lists
    them, are 36 times 10000. *)
Lemma taxi_row_counts :
  taxi_series "table.row_count" (VDict []) = Some (repeat 10000 36)
  /\ map (fun z => z # 1)%Q (repeat 10000 36) = row_counts.
Proof. split; reflexivity. Qed.

(** C1. On 36 row counts of 10000 the bootstrap estimator, under the
    row-count rule's truncation and rounding, returns 10000 for both
    bounds, whatever the false-positive rate (within [0, 1)), the sample
    count and the seed; and the default row-count rule, run on the 36
    batches, emits [expect_table_row_count_to_be_between] with
    [min_value = max_value = 10000], the configuration the test
    expects. *)
Theorem constant_row_counts_give_equal_bounds
    (false_positive_rate : Q) (num_samples : Z) (random_seed : option Z) :
  (0 <= false_positive_rate)%Q -> (false_positive_rate < 1)%Q -> 0 < num_samples ->
  estimate rng seed_rng randint reducer empirical_quantile kde_interval
    os_entropy row_counts false_positive_rate Bootstrap num_samples
    random_seed default_truncate_values (Some 0)
  = Ok ((10000 # 1)%Q, (10000 # 1)%Q)
  /\ exists result configuration,
       run rng seed_rng randint reducer empirical_quantile kde_interval
         taxi_metrics semantic_type_of os_entropy batch_ids
         (row_count_rule_config RANDOM_SEED) taxi_columns = Ok result
       /\ expectation_configurations result = [configuration]
       /\ field "expectation_type" configuration
          = Some (VStr "expect_table_row_count_to_be_between")
       /\ field "kwargs" configuration
          = Some (VDict [("max_value", VInt 10000); ("min_value", VInt 10000)])
       /\ value_eqb configuration
            expected_expect_table_row_count_to_be_between_expectation_configuration
          = true.
Proof.
  intros H0 H1 Hn. split.
  - unfold estimate. rewrite (valid_rate _ _ H0 H1 Hn). cbv. reflexivity.
  - eexists. eexists. split; [cbv; reflexivity |]. cbv. repeat split.
Qed.

(** C6. The run over the 36 batches of the taxi table, under the
    configuration the expected suite cites, succeeds whatever the numeric
    library computes; it lists the table's row-count assertion first and
    then one unique-value-count assertion per column, in the order of the
    columns: 19 in all, those the test expects, about the domains (and
    with the metrics) the test expects. *)
Theorem run_lists_assertions_in_encounter_order :
  exists result,
    run rng seed_rng randint reducer empirical_quantile kde_interval
      taxi_metrics semantic_type_of os_entropy batch_ids
      (cited_profiler_config RANDOM_SEED) taxi_columns = Ok result
    /\ map summary (expectation_configurations result)
       = (Some (VStr "expect_table_row_count_to_be_between"), None)
         :: map (fun column =>
                   (Some (VStr "expect_column_unique_value_count_to_be_between"),
                    Some (VStr column))) taxi_columns
    /\ map summary (expectation_configurations result)
       = map summary expected_expectation_configurations
    /\ List.length (expectation_configurations result) = 19%nat
    /\ List.length taxi_columns = 18%nat
    /\ map fst (metrics_by_domain result)
       = table_domain :: map column_domain taxi_columns
    /\ metrics_eqb (metrics_by_domain result) expected_metrics_by_domain = true.
Proof.
  eexists. split.
  - cbv -[interval round_bounds truncate]. reflexivity.
  - cbv -[interval round_bounds truncate]. repeat split.
Qed.

End ProfilerProperties.

(** 36 row counts of 10000 under the default rule's rate, sample count
    and a seed, with a concrete numeric library. *)
Lemma constant_row_counts_give_equal_bounds_witness :
  Profiler.estimate Concrete.rng Concrete.seed_rng Concrete.randint Concrete.mean
    Concrete.nearest_rank Concrete.kde_interval
    0 VolumeDataAssistantTest.row_counts (1 # 20) Profiler.Bootstrap 9999 (Some 0)
    VolumeDataAssistantTest.default_truncate_values (Some 0)
  = Profiler.Ok ((10000 # 1)%Q, (10000 # 1)%Q)
  /\ exists result configuration,
       Profiler.run Concrete.rng Concrete.seed_rng Concrete.randint Concrete.mean
         Concrete.nearest_rank Concrete.kde_interval
         VolumeDataAssistantTest.taxi_metrics Concrete.semantic_type_of 0
         VolumeDataAssistantTest.batch_ids
         (VolumeDataAssistantTest.row_count_rule_config 0)
         VolumeDataAssistantTest.taxi_columns = Profiler.Ok result
       /\ Profiler.expectation_configurations result = [configuration]
       /\ Profiler.field "expectation_type" configuration
          = Some (Profiler.VStr "expect_table_row_count_to_be_between")
       /\ Profiler.field "kwargs" configuration
          = Some (Profiler.VDict [("max_value", Profiler.VInt 10000);
                                  ("min_value", Profiler.VInt 10000)])
       /\ Profiler.value_eqb configuration
            VolumeDataAssistantTest.expected_expect_table_row_count_to_be_between_expectation_configuration
          = true.
Proof.
  apply (constant_row_counts_give_equal_bounds Concrete.rng Concrete.seed_rng
           Concrete.randint Concrete.mean Concrete.nearest_rank Concrete.kde_interval
           Concrete.semantic_type_of 0 0 (1 # 20) 9999 (Some 0)).
  - unfold Qle; simpl; lia.
  - unfold Qlt; simpl; lia.
  - lia.
Defined.

(** ** What the test's expected [meta] says of the range details *)

Section ValueEquality.
Import Profiler VolumeDataAssistantTest.

Lemma value_nested_ind (P : value -> Prop) :
  P VNone -> (forall b, P (VBool b)) -> (forall q, P (VNum q)) -> (forall s, P (VStr s)) ->
  (forall l, Forall P l -> P (VList l)) ->
  (forall d, Forall (fun kv => P (snd kv)) d -> P (VDict d)) ->
  forall v, P v.
Proof.
  intros HNone HBool HNum HStr HList HDict.
  refine (fix IH (v : value) : P v :=
            match v with
            | VNone => HNone
            | VBool b => HBool b
            | VNum q => HNum q
            | VStr s => HStr s
            | VList l =>
                HList l ((fix all (l : list value) : Forall P l :=
                            match l with
                            | [] => Forall_nil P
                            | x :: rest => Forall_cons x (IH x) (all rest)
                            end) l)
            | VDict d =>
                HDict d ((fix all (d : list (string * value))
                            : Forall (fun kv => P (snd kv)) d :=
                            match d with
                            | [] => Forall_nil _
                            | kv :: rest => Forall_cons kv (IH (snd kv)) (all rest)
                            end) d)
            end).
Qed.

Lemma value_eqb_list (l m : list value) :
  value_eqb (VList l) (VList m) = true
  <-> Forall2 (fun x y => value_eqb x y = true) l m.
Proof.
  revert m. induction l as [| x l IH]; intros [| y m]; cbn; split; intros H;
    try discriminate; try constructor; try (inversion H; fail).
  - apply andb_true_iff in H as [H _]. exact H.
  - apply andb_true_iff in H as [_ H]. apply IH. exact H.
  - inversion H; subst. apply andb_true_iff. split; [assumption |].
    apply (IH m). assumption.
Qed.

Lemma value_eqb_dict (d e : list (string * value)) :
  value_eqb (VDict d) (VDict e) = true
  <-> List.length d = List.length e
      /\ Forall (fun kx => exists y, lookup (fst kx) e = Some y
                                     /\ value_eqb (snd kx) y = true) d.
Proof.
  cbn [value_eqb]. rewrite andb_true_iff, Nat.eqb_eq.
  apply and_iff_compat_l.
  induction d as [| [k x] d IH]; cbn [fst snd].
  - split; [constructor | reflexivity].
  - split.
    + intros H. destruct (lookup k e) as [y |] eqn:Hy; [| discriminate].
      apply andb_true_iff in H as [Hx Hd]. constructor.
      * exists y. cbn [fst snd]. split; [exact Hy | exact Hx].
      * apply IH. exact Hd.
    + intros H. inversion H as [| ? ? [y [Hy Hx]] Hd]; subst. cbn [fst snd] in *.
      rewrite Hy, Hx. apply IH. exact Hd.
Qed.

Lemma lookup_In (k : string) (e : list (string * value)) (y : value) :
  lookup k e = Some y -> In (k, y) e.
Proof.
  induction e as [| [k' x] e IH]; cbn; [discriminate |].
  destruct (String.eqb_spec k' k) as [-> | _].
  - intros [= ->]. left. reflexivity.
  - intros H. right. apply IH. exact H.
Qed.

(** Python's [==] is transitive on these values. *)
Lemma value_eqb_trans (a : value) :
  forall b c, value_eqb a b = true -> value_eqb b c = true -> value_eqb a c = true.
Proof.
  induction a as [| x | x | x | l IH | d IH] using value_nested_ind;
    intros b c Hab Hbc; destruct b; try discriminate Hab;
    destruct c; try discriminate Hbc.
  - reflexivity.
  - cbn in *. apply Bool.eqb_prop in Hab, Hbc. subst. apply Bool.eqb_reflx.
  - cbn in *. apply Qeq_bool_iff in Hab, Hbc. apply Qeq_bool_iff.
    eapply Qeq_trans; eassumption.
  - cbn in *. apply String.eqb_eq in Hab, Hbc. subst. apply String.eqb_refl.
  - apply value_eqb_list in Hab, Hbc. apply value_eqb_list.
    revert l1 Hbc. induction Hab as [| x y l m Hxy Hlm IHl]; intros n Hbc.
    + inversion Hbc. constructor.
    + inversion Hbc; subst. inversion IH; subst. constructor.
      * eauto.
      * apply IHl; assumption.
  - apply value_eqb_dict in Hab as [Hlen Hab], Hbc as [Hlen' Hbc].
    apply value_eqb_dict. split; [congruence |].
    rewrite Forall_forall in *. intros [k x] Hin.
    destruct (Hab _ Hin) as [y [Hy Hxy]]. cbn [fst snd] in *.
    destruct (Hbc _ (lookup_In _ _ _ Hy)) as [z [Hz Hyz]]. cbn [fst snd] in *.
    exists z. split; [exact Hz |].
    exact (IH _ Hin _ _ Hxy Hyz).
Qed.

(** [x] occurs in [v] when it equals [v] or occurs in one of the
    elements or entries of [v]. *)
Lemma occurs_iff (x v : value) :
  occurs x v = true
  <-> value_eqb x v = true
      \/ exists child,
           match v with
           | VList l => In child l
           | VDict d => exists k, In (k, child) d
           | _ => False
           end /\ occurs x child = true.
Proof.
  destruct v as [| b | q | s | l | d]; cbn [occurs];
    rewrite orb_true_iff; apply or_iff_compat_l;
    try (split; [discriminate | intros [child [[] _]]]).
  - induction l as [| y l IH].
    + split; [discriminate | intros [child [[] _]]].
    + rewrite orb_true_iff, IH. split.
      * intros [H | [child [Hin H]]].
        -- exists y. split; [left; reflexivity | exact H].
        -- exists child. split; [right; exact Hin | exact H].
      * intros [child [[Heq | Hin] Hc]]; [left; subst; exact Hc |].
        right. exists child. split; assumption.
  - induction d as [| [k y] d IH].
    + split; [discriminate | intros [child [[k []] _]]].
    + rewrite orb_true_iff, IH. split.
      * intros [H | [child [[k' Hin] H]]].
        -- exists y. split; [exists k; left; reflexivity | exact H].
        -- exists child. split; [exists k'; right; exact Hin | exact H].
      * intros [child [[k' [Heq | Hin]] Hc]].
        -- left. injection Heq as _ <-. exact Hc.
        -- right. exists child. split; [exists k'; exact Hin | exact Hc].
Qed.

(** What occurs in a value occurs in every value equal to it. *)
Lemma occurs_in_equal_values (a : value) :
  forall b x, value_eqb a b = true -> occurs x a = true -> occurs x b = true.
Proof.
  induction a as [| y | y | y | l IH | d IH] using value_nested_ind;
    intros b x Hab Hx; apply occurs_iff in Hx as [Hx | [child [Hchild Hx]]];
    try contradiction;
    try (apply occurs_iff; left; eapply value_eqb_trans; eassumption).
  - destruct b; try discriminate Hab.
    apply value_eqb_list in Hab.
    rewrite Forall_forall in IH.
    assert (Hm : exists child', In child' l0 /\ value_eqb child child' = true).
    { clear IH. induction Hab as [| u v l m Huv Hlm IHl]; [destruct Hchild |].
      destruct Hchild as [<- | Hin].
      - exists v. split; [left; reflexivity | exact Huv].
      - destruct (IHl Hin) as [c [Hc Hcc]]. exists c. split; [right; exact Hc | exact Hcc]. }
    destruct Hm as [child' [Hin' Heq]].
    apply occurs_iff. right. exists child'. split; [exact Hin' |].
    exact (IH _ Hchild _ _ Heq Hx).
  - destruct b; try discriminate Hab.
    apply value_eqb_dict in Hab as [_ Hab].
    rewrite Forall_forall in IH, Hab.
    destruct Hchild as [k Hin].
    destruct (Hab _ Hin) as [z [Hz Heq]]. cbn [fst snd] in *.
    apply occurs_iff. right. exists z. split.
    + exists k. apply lookup_In. exact Hz.
    + exact (IH _ Hin _ _ Heq Hx).
Qed.

End ValueEquality.

Section RangeDetails.
Import Profiler VolumeDataAssistantTest.

Variable rng : Type.
Variable seed_rng : Z -> rng.
Variable randint : rng -> nat -> nat * rng.
Variable reducer : list Q -> Q.
Variable empirical_quantile : list Q -> Q -> Q.
Variable kde_interval : list Q -> Q -> Q * Q.
Variable compute : string -> value -> value -> list string -> option (list (string * value)).
Variable os_entropy : Z.
Variable RANDOM_SEED : Z.

(** A builder whose [meta] is one reference hands on, under that key,
    what the reference leads to in the environment its own parameter
    builders left: the value as it stands. *)
Lemma builder_attaches_what_meta_refers_to
    (batch_ids : list string) (cfg : value) (key reference : string)
    (path : list string) (e : Env) (emitted : value) :
  field "meta" cfg = Some (VDict [(key, VStr reference)]) ->
  is_reference reference = true ->
  parse_reference reference = Some (path, None) ->
  build_expectation_configuration rng seed_rng randint reducer empirical_quantile
    kde_interval compute os_entropy batch_ids cfg e = Ok (Some emitted) ->
  exists e' built expectation_type kwargs attached,
    build_parameters rng seed_rng randint reducer empirical_quantile kde_interval
      compute os_entropy batch_ids
      (list_field cfg "validation_parameter_builder_configs") e = Ok (e', built)
    /\ get_path path (env_value e') = Some attached
    /\ emitted = VDict [("expectation_type", VStr expectation_type);
                        ("kwargs", kwargs);
                        ("meta", VDict [(key, attached)])].
Proof.
  intros Hmeta Hisref Hparse H. unfold build_expectation_configuration in H.
  destruct (build_parameters rng seed_rng randint reducer empirical_quantile
              kde_interval compute os_entropy batch_ids
              (list_field cfg "validation_parameter_builder_configs") e)
    as [[e' built] |]; [| discriminate H].
  cbn [obind fst] in H.
  destruct (string_field cfg "expectation_type") as [expectation_type |];
    [| discriminate H].
  cbn [obind] in H.
  destruct (config_field e' cfg "condition") as [condition |]; [| discriminate H].
  cbn [obind] in H.
  assert (Hemit :
    (kwargs <~ resolve (env_value e') (VDict (kwargs_template cfg)) ;;
     meta <~ config_field e' cfg "meta" ;;
     Ok (Some (VDict [("expectation_type", VStr expectation_type);
                      ("kwargs", kwargs);
                      ("meta", match meta with VNone => VDict [] | m => m end)])))
    = Ok (Some emitted)).
  { destruct condition as [| [|] | | | |]; try exact H. discriminate H. }
  clear H.
  destruct (resolve (env_value e') (VDict (kwargs_template cfg))) as [kwargs |];
    [| discriminate Hemit].
  cbn [obind] in Hemit. unfold config_field in Hemit. rewrite Hmeta in Hemit.
  assert (Hone :
    resolve (env_value e') (VDict [(key, VStr reference)])
    = (y <~ resolve_reference (env_value e') reference ;; Ok (VDict [(key, y)]))).
  { cbn [resolve]. rewrite Hisref.
    destruct (resolve_reference (env_value e') reference); reflexivity. }
  rewrite Hone in Hemit. clear Hone.
  unfold resolve_reference in Hemit. rewrite Hparse in Hemit.
  destruct (get_path path (env_value e')) as [attached |] eqn:Hpath;
    [| discriminate Hemit].
  assert (Hattached : match attached with VNone | _ => Ok attached end = Ok attached)
    by (destruct attached; reflexivity).
  rewrite Hattached in Hemit. cbn [obind] in Hemit. injection Hemit as <-.
  exists e', built, expectation_type, kwargs, attached.
  repeat split. exact Hpath.
Qed.



End RangeDetails.



(** Every expectation configuration the test expects carries, under
    [meta.profiler_details], the details of its domain's metric in
    [expected_metrics_by_domain]: metric configuration and number of
    batches. *)
Lemma expected_profiler_details_are_the_metric_details :
  VolumeDataAssistantTest.forall2b
    (fun configuration entry =>
       match VolumeDataAssistantTest.profiler_details configuration,
             snd entry with
       | Some d, [(_, node)] =>
           match Profiler.field "details" node with
           | Some d' =>
               Profiler.value_eqb d d'
               && Profiler.value_eqb
                    (Profiler.VList (map Profiler.VStr (VolumeDataAssistantTest.keys d)))
                    (Profiler.VList [Profiler.VStr "metric_configuration";
                                     Profiler.VStr "num_batches"])
           | None => false
           end
       | _, _ => false
       end)
    VolumeDataAssistantTest.expected_expectation_configurations
    VolumeDataAssistantTest.expected_metrics_by_domain = true.
Proof. cbv. reflexivity. Qed.

(** None of the expectation configurations the test expects holds a
    reference: their kwargs and meta are concrete. *)
Lemma expected_configurations_hold_no_reference :
  existsb VolumeDataAssistantTest.holds_reference
    VolumeDataAssistantTest.expected_expectation_configurations = false.
Proof. cbv. reflexivity. Qed.
